(** * Weatherman: the rain / cold alert script and the weather fetch

    A shallow embedding of [rain_alert.py] (the stateful alert script) and of
    [ow_onecall] from [weather_push.py], with the properties of the alert
    decision logic stated against it.

    Modelling conventions.
    - JSON numbers are rationals ([Q]); every finite float is one, and
      Python compares and rounds floats by their exact value.
    - Python's [round(x)] (one argument) is round-half-to-even, [py_round].
    - A JSON object with optional keys is a record of [option] fields; a
      subscript [d["k"]] on a missing key raises [KeyError "k"].
    - The script's effects are a trace of events: a [Push] for every call
      of [send_push], a [Save] for every call of [save_state]. A computation
      is a pair of the events produced so far and either a value or the
      exception that stopped it.
    - Strings are byte strings (UTF-8); byte-wise order on UTF-8 coincides
      with Python's code-point order.
    - The body of a notification is kept as the data interpolated into the
      f-string ([Message]), not as the formatted text. *)

From Stdlib Require Import ZArith QArith Qround List String Ascii Bool.
From Stdlib Require Import Permutation Sorted Lia Lqa.
From Stdlib Require Import NArith DecimalString.
Import ListNotations.

Local Open Scope string_scope.
Local Open Scope list_scope.
Local Open Scope Z_scope.

(** ** Python numbers *)

(** [round(x)]: nearest integer, ties to the even one. *)
Definition py_round (x : Q) : Z :=
  let f := Qfloor x in
  match Qcompare (x - inject_Z f) (1 # 2) with
  | Lt => f
  | Gt => f + 1
  | Eq => if Z.even f then f else f + 1
  end.

(** [a > b] on numbers. *)
Definition Qgtb (a b : Q) : bool := negb (Qle_bool a b).

(** ** Strings *)

Definition lower_char (c : ascii) : ascii :=
  let n := nat_of_ascii c in
  if ((65 <=? n) && (n <=? 90))%nat then ascii_of_nat (n + 32) else c.

(** [s.lower()], on the ASCII letters. No character outside ASCII lowers to
    one of the letters of the word compared against in this program. *)
Fixpoint lower (s : string) : string :=
  match s with
  | EmptyString => EmptyString
  | String c s' => String (lower_char c) (lower s')
  end.

(** ** Configuration (rain_alert.py, lines 20-32) *)

Definition QUIET_START : Z := 23.
Definition QUIET_END : Z := 6.

(** A threshold row: (value, title, advice). *)
Definition Threshold : Type := Z * string * string.

Definition th_value (t : Threshold) : Z := fst (fst t).
Definition th_title (t : Threshold) : string := snd (fst t).
Definition th_advice (t : Threshold) : string := snd t.

Definition COLD_THRESHOLDS : list Threshold :=
  [ (15, "🧥 Cool Weather Alert", "A light jacket may be useful.");
    (10, "❄️ Cold Weather Alert", "Dress warmly if heading out.");
    (5,  "🧊 Very Cold Alert", "Cold conditions expected. Bundle up.");
    (0,  "🥶 Freezing Alert", "Risk of frost or icy surfaces.") ].

(** Python's [<] on tuples: lexicographic. *)
Definition tuple_ltb (a b : Threshold) : bool :=
  match Z.compare (th_value a) (th_value b) with
  | Lt => true
  | Gt => false
  | Eq =>
      match String.compare (th_title a) (th_title b) with
      | Lt => true
      | Gt => false
      | Eq => String.ltb (th_advice a) (th_advice b)
      end
  end.

(** [sorted(l, reverse=True)]: descending, stable. *)
Fixpoint insert_desc (x : Threshold) (l : list Threshold) : list Threshold :=
  match l with
  | [] => [x]
  | y :: l' => if tuple_ltb x y then y :: insert_desc x l' else x :: l
  end.

Definition sorted_reverse (l : list Threshold) : list Threshold :=
  fold_right insert_desc [] l.

(** ** Data *)

(** One element of an hourly point's ["weather"] list. *)
Record WeatherTag := mkWeatherTag { main : option string }.

(** One hourly forecast point: ["dt"], the optional ["rain"] key (its value
    is never read) and the optional ["weather"] list. *)
Record HourlyPoint := mkHourlyPoint {
  dt : option Z;
  rain : option Q;
  weather : option (list WeatherTag)
}.

Record Current := mkCurrent {
  temp : option Q;
  feels_like : option Q
}.

(** The decoded weather response. *)
Record Data := mkData {
  current : option Current;
  hourly : option (list HourlyPoint)
}.

(** The persisted alert state. *)
Record State := mkState {
  rain_alerted : bool;
  last_feels_like : option Q
}.

Definition set_rain_alerted (b : bool) (s : State) : State :=
  {| rain_alerted := b; last_feels_like := last_feels_like s |}.

Definition set_last_feels_like (v : option Q) (s : State) : State :=
  {| rain_alerted := rain_alerted s; last_feels_like := v |}.

(** The environment variables read at start-up. *)
Record Env := mkEnv {
  OW_KEY : option string;
  PUSH_TOKEN : option string;
  PUSH_USER : option string
}.

(** ** Effects *)

Inductive Exn : Type :=
| KeyError (key : string)
| RuntimeError (what : string)
| SystemExit (code : Z).

(** What the f-string of a notification body interpolates. *)
Inductive Message : Type :=
| RainMessage (rain_time : option Z)
| ColdMessage (current_temp current_feels : Z) (advice : string).

Inductive Event : Type :=
| Push (title : string) (message : Message) (priority : Z)
| Save (state : State).

Inductive result (A : Type) : Type :=
| Ok (a : A)
| Raise (e : Exn).
Arguments Ok {A} a.
Arguments Raise {A} e.

(** A computation: the events it produced and how it ended. *)
Definition M (A : Type) : Type := list Event * result A.

Definition ret {A} (a : A) : M A := ([], Ok a).

Definition bind {A B} (m : M A) (k : A -> M B) : M B :=
  match m with
  | (evs, Raise e) => (evs, Raise e)
  | (evs, Ok a) => let (evs', r) := k a in (evs ++ evs', r)
  end.

Definition raise {A} (e : Exn) : M A := ([], Raise e).
Definition lift {A} (r : result A) : M A := ([], r).

Notation "x <- c1 ;; c2" := (bind c1 (fun x => c2))
  (at level 61, c1 at next level, right associativity).
Notation "c1 ;;; c2" := (bind c1 (fun _ => c2))
  (at level 61, right associativity).

(** [d["k"]] *)
Definition subscript {A} (key : string) (v : option A) : result A :=
  match v with
  | Some a => Ok a
  | None => Raise (KeyError key)
  end.

(** ** Helpers (rain_alert.py, lines 40-75) *)

Definition is_quiet_hours (hour : Z) : bool :=
  (QUIET_START <=? hour) || (hour <? QUIET_END).

Definition send_push (title : string) (message : Message) (priority : Z) : M unit :=
  ([Push title message priority], Ok tt).

(** The state file: absent, or holding a state. *)
Definition load_state (file : option State) : State :=
  match file with
  | Some s => s
  | None => {| rain_alerted := false; last_feels_like := None |}
  end.

Definition save_state (state : State) : M unit := ([Save state], Ok tt).

Definition crossed (prev : option Q) (curr threshold : Z) : bool :=
  match prev with
  | None => false
  | Some p => Qgtb p (inject_Z threshold) && (curr <=? threshold)
  end.

(** ** Rain alert (lines 89-108) *)

(** [any(w["main"].lower() == "rain" for w in ws)] *)
Fixpoint any_rain (ws : list WeatherTag) : result bool :=
  match ws with
  | [] => Ok false
  | w :: ws' =>
      match subscript "main" (main w) with
      | Raise e => Raise e
      | Ok m => if (lower m =? "rain")%string then Ok true else any_rain ws'
      end
  end.

(** The condition of the loop body, line 94. *)
Definition is_rain (h : HourlyPoint) : result bool :=
  match rain h with
  | Some _ => Ok true
  | None => any_rain (match weather h with Some ws => ws | None => [] end)
  end.

(** The loop of lines 93-97; returns [(rain_soon, rain_time)]. *)
Fixpoint rain_loop (hs : list HourlyPoint) : result (bool * option Z) :=
  match hs with
  | [] => Ok (false, None)
  | h :: hs' =>
      match is_rain h with
      | Raise e => Raise e
      | Ok true =>
          match subscript "dt" (dt h) with
          | Raise e => Raise e
          | Ok t => Ok (true, Some t)
          end
      | Ok false => rain_loop hs'
      end
  end.

(** [data.get("hourly", [])[:2]] *)
Definition lookahead (data : Data) : list HourlyPoint :=
  firstn 2 (match hourly data with Some hs => hs | None => [] end).

Definition RAIN_TITLE : string := "🌧️ Rain Alert".

Definition rain_section (data : Data) (state : State) : M State :=
  r <- lift (rain_loop (lookahead data)) ;;
  let '(rain_soon, rain_time) := r in
  state <- (if rain_soon && negb (rain_alerted state)
            then send_push RAIN_TITLE (RainMessage rain_time) 1 ;;;
                 ret (set_rain_alerted true state)
            else ret state) ;;
  ret (if negb rain_soon then set_rain_alerted false state else state).

(** ** Cold alerts (lines 110-141) *)

(** The loop of lines 118-121: the first row, in iteration order, whose
    threshold is crossed. *)
Definition alert_to_send (last_feels : option Q) (current_feels : Z)
  : option Threshold :=
  find (fun t => crossed last_feels current_feels (th_value t))
       (sorted_reverse COLD_THRESHOLDS).

(** Lines 123-138. *)
Definition notify_cold (hour current_temp current_feels : Z)
    (alert : option Threshold) : M unit :=
  match alert with
  | Some (threshold, title, advice) =>
      if negb (is_quiet_hours hour && (0 <? threshold))
      then send_push title (ColdMessage current_temp current_feels advice)
                     (if threshold <=? 0 then 2 else 1)
      else ret tt
  | None => ret tt
  end.

Definition cold_section (data : Data) (hour : Z) (state : State) : M State :=
  c <- lift (subscript "current" (current data)) ;;
  t <- lift (subscript "temp" (temp c)) ;;
  let current_temp := py_round t in
  f <- lift (subscript "feels_like" (feels_like c)) ;;
  let current_feels := py_round f in
  let last_feels := last_feels_like state in
  notify_cold hour current_temp current_feels
              (alert_to_send last_feels current_feels) ;;;
  ret (set_last_feels_like (Some (inject_Z current_feels)) state).

(** ** The script *)

(** Lines 83-142: from the decoded response, the local hour and the state
    file to the trace of the invocation. *)
Definition run (data : Data) (hour : Z) (file : option State) : M unit :=
  let state := load_state file in
  state <- rain_section data state ;;
  state <- cold_section data hour state ;;
  save_state state.

(** [not v] on an optional string. *)
Definition falsy (v : option string) : bool :=
  match v with
  | None => true
  | Some s => (s =? "")%string
  end.

(** The whole script, with the guard of lines 35-37. *)
Definition script (env : Env) (data : Data) (hour : Z) (file : option State)
  : M unit :=
  if falsy (OW_KEY env) || falsy (PUSH_TOKEN env) || falsy (PUSH_USER env)
  then raise (SystemExit 1)
  else run data hour file.

(** The state file after a trace: the last state saved, if any. *)
Fixpoint disk_after (file : option State) (evs : list Event) : option State :=
  match evs with
  | [] => file
  | Save s :: evs' => disk_after (Some s) evs'
  | Push _ _ _ :: evs' => disk_after file evs'
  end.

(** One invocation against the state file: trace, outcome, file afterwards. *)
Definition invoke (data : Data) (hour : Z) (file : option State)
  : list Event * result unit * option State :=
  let (evs, r) := run data hour file in (evs, r, disk_after file evs).

(** ** Weather fetch of the daily summary (weather_push.py, lines 53-64) *)

Definition ow_onecall (status_code : Z) (data : Data) : result Data :=
  if negb (status_code =? 200) then Raise (RuntimeError "OpenWeather HTTP")
  else match hourly data with
       | None => Raise (RuntimeError "OpenWeather response missing hourly")
       | Some _ => Ok data
       end.

(** ** Reading a trace *)

Definition is_save (e : Event) : bool :=
  match e with Save _ => true | Push _ _ _ => false end.

Definition is_rain_push (e : Event) : bool :=
  match e with
  | Push title _ _ => (title =? RAIN_TITLE)%string
  | Save _ => false
  end.

(** The notification of the row with value [T] was sent. *)
Definition cold_fired (T : Z) (evs : list Event) : bool :=
  existsb (fun e =>
    match e with
    | Push title _ _ =>
        existsb (fun t => (th_value t =? T) && (th_title t =? title)%string)
                COLD_THRESHOLDS
    | Save _ => false
    end) evs.

Definition saves (evs : list Event) : nat :=
  List.length (filter is_save evs).
Definition rain_pushes (evs : list Event) : nat :=
  List.length (filter is_rain_push evs).

Definition is_cold_push (e : Event) : bool :=
  match e with
  | Push title _ _ =>
      existsb (fun t => (th_title t =? title)%string) COLD_THRESHOLDS
  | Save _ => false
  end.

Definition cold_pushes (evs : list Event) : nat :=
  List.length (filter is_cold_push evs).

(** ** The parts of an invocation *)

(** The two numeric fields of the current conditions, when both are there. *)
Definition current_fields (data : Data) : option (Q * Q) :=
  match current data with
  | Some c =>
      match temp c, feels_like c with
      | Some t, Some f => Some (t, f)
      | _, _ => None
      end
  | None => None
  end.

(** What the rain section sends and the state it leaves, given the outcome
    [(rain_soon, rain_time)] of the loop. *)
Definition rain_events (rain_soon : bool) (rain_time : option Z) (st : State)
  : list Event :=
  if rain_soon && negb (rain_alerted st)
  then [Push RAIN_TITLE (RainMessage rain_time) 1]
  else [].

Definition rain_state (rain_soon : bool) (st : State) : State :=
  if rain_soon
  then (if rain_alerted st then st else set_rain_alerted true st)
  else set_rain_alerted false st.

(** A sequence of invocations, each against the file the previous one left:
    the concatenated trace and the final file. *)
Fixpoint invoke_all (inputs : list (Data * Z)) (file : option State)
  : list Event * option State :=
  match inputs with
  | [] => ([], file)
  | (data, hour) :: rest =>
      let '(evs, _, file') := invoke data hour file in
      let (evs', file'') := invoke_all rest file' in
      (evs ++ evs', file'')
  end.

(** Rain is detected in the lookahead of the invocation. *)
Definition rain_detected (data : Data) : Prop :=
  exists rain_time, rain_loop (lookahead data) = Ok (true, rain_time).

(** The priority scale in the words of the specification: high (1) at or
    below freezing, normal (0) above. *)
Definition claimed_priority (threshold : Z) : Z :=
  if threshold <=? 0 then 1 else 0.

(** The crossing rule in the words of the specification. *)
Definition downward_crossing (prev : option Q) (curr T : Z) : Prop :=
  exists p, prev = Some p /\ (inject_Z T < p)%Q /\ curr <= T.

(** The quiet hours in the words of the specification. *)
Definition quiet (hour : Z) : Prop := 23 <= hour \/ hour < 6.

(** The three ways a run can go. *)
Inductive run_shape (data : Data) (hour : Z) (file : option State) : Prop :=
| shape_rain_raise e :
    rain_loop (lookahead data) = Raise e ->
    run data hour file = ([], Raise e) ->
    run_shape data hour file
| shape_missing rs rt key :
    rain_loop (lookahead data) = Ok (rs, rt) ->
    current_fields data = None ->
    run data hour file =
      (rain_events rs rt (load_state file), Raise (KeyError key)) ->
    run_shape data hour file
| shape_complete rs rt t f :
    rain_loop (lookahead data) = Ok (rs, rt) ->
    current_fields data = Some (t, f) ->
    run data hour file =
      (rain_events rs rt (load_state file)
         ++ fst (notify_cold hour (py_round t) (py_round f)
                   (alert_to_send (last_feels_like (load_state file))
                      (py_round f)))
         ++ [Save (set_last_feels_like (Some (inject_Z (py_round f)))
                     (rain_state rs (load_state file)))],
       Ok tt) ->
    run_shape data hour file.

(** ** The daily summary (weather_push.py)

    The pure parts of the summary script: number formatting, the rule-based
    tip, the clean-up of a generated tip, the high and low of the next 24
    hourly points, and the temperatures of the time blocks. A Python string
    is kept as its UTF-8 bytes where the source only builds and compares it,
    and as its list of code points where the source slices and splits it. *)
Module WeatherPush.

(** Exceptions of the summary's own computations. *)
Inductive Error : Type := IndexError | TypeError.

Inductive outcome (A : Type) : Type :=
| Done (a : A)
| Fail (e : Error).
Arguments Done {A} a.
Arguments Fail {A} e.

(** *** Formatting (lines 66-75) *)

(** [str(n)] for an integer. *)
Definition str_int (n : Z) : string := NilZero.string_of_int (Z.to_int n).

(** The two separators, as they are in the source file. *)
Definition DEGREE : string := "Â°".
Definition DASH : string := "â€“".

Definition fmt_temp (x : Q) : string := str_int (py_round x) ++ DEGREE.

Definition dash_range (min_v max_v : option Q) : string :=
  match min_v, max_v with
  | Some a, Some b =>
      let lo := py_round a in
      let hi := py_round b in
      if negb (lo =? hi)
      then str_int lo ++ DASH ++ str_int hi ++ DEGREE
      else str_int lo ++ DEGREE
  | _, _ => "--"
  end.

(** *** The rule-based tip (lines 90-103) *)

Record Facts := mkFacts {
  city : string;
  now : Z;
  desc : string;
  high : Z;
  low : Z;
  rain_pct : Z
}.

Definition TIP_RAIN_LIKELY : string := "Rain likely todayâ€”keep an umbrella handy.".
Definition TIP_SOME_RAIN : string := "Some chance of rainâ€”good to be prepared.".
Definition TIP_BIG_SWING : string := "Big temperature swingâ€”dress in layers.".
Definition TIP_HOT : string := "Hot dayâ€”hydrate and avoid peak sun.".
Definition TIP_COLD : string := "Cold periodsâ€”bundle up, especially at night.".
Definition TIP_TYPICAL : string := "Looks like a fairly typical dayâ€”stay comfortable.".

Definition rules (facts : Facts) : string :=
  let swing := high facts - low facts in
  let rain := rain_pct facts in
  if 60 <=? rain then TIP_RAIN_LIKELY
  else if 30 <=? rain then TIP_SOME_RAIN
  else if 10 <=? swing then TIP_BIG_SWING
  else if 32 <=? high facts then TIP_HOT
  else if low facts <=? 5 then TIP_COLD
  else TIP_TYPICAL.

(** *** Cleaning a generated tip (lines 137-139) *)

(** A string as its code points. *)
Definition pystr : Type := list N.

Definition SPACE : N := 32%N.

(** The code points of a source literal, from its UTF-8 bytes (sequences of
    one to four bytes; a literal of the source is valid UTF-8). *)
Fixpoint decode (s : string) : pystr :=
  match s with
  | EmptyString => []
  | String c0 s1 =>
      let b0 := N_of_ascii c0 in
      if (b0 <? 128)%N then b0 :: decode s1
      else if (b0 <? 224)%N then
        match s1 with
        | String c1 s2 =>
            ((b0 - 192) * 64 + (N_of_ascii c1 - 128))%N :: decode s2
        | EmptyString => []
        end
      else if (b0 <? 240)%N then
        match s1 with
        | String c1 (String c2 s3) =>
            ((b0 - 224) * 4096 + (N_of_ascii c1 - 128) * 64
             + (N_of_ascii c2 - 128))%N :: decode s3
        | _ => []
        end
      else
        match s1 with
        | String c1 (String c2 (String c3 s4)) =>
            ((b0 - 240) * 262144 + (N_of_ascii c1 - 128) * 4096
             + (N_of_ascii c2 - 128) * 64 + (N_of_ascii c3 - 128))%N
            :: decode s4
        | _ => []
        end
  end.

Section Whitespace.

(** [str.isspace] on one code point: Python's table of whitespace. *)
Variable isspace : N -> bool.

Fixpoint lstrip (s : pystr) : pystr :=
  match s with
  | [] => []
  | c :: s' => if isspace c then lstrip s' else s
  end.

(** [s.strip()] *)
Definition strip (s : pystr) : pystr := rev (lstrip (rev (lstrip s))).

(** [s.split()]: the maximal runs of non-whitespace; [cur] is the run being
    read, last character first. *)
Fixpoint split_from (cur : pystr) (s : pystr) : list pystr :=
  match s with
  | [] => match cur with [] => [] | _ :: _ => [rev cur] end
  | c :: s' =>
      if isspace c
      then match cur with
           | [] => split_from [] s'
           | _ :: _ => rev cur :: split_from [] s'
           end
      else split_from (c :: cur) s'
  end.

Definition split (s : pystr) : list pystr := split_from [] s.

(** [sep.join(words)] *)
Fixpoint join (sep : pystr) (words : list pystr) : pystr :=
  match words with
  | [] => []
  | [w] => w
  | w :: ws => w ++ sep ++ join sep ws
  end.

(** Lines 137-139: strip, collapse to one line, cut at 90 characters. *)
Definition single_line (content : pystr) : pystr :=
  let text := strip content in
  firstn 90 (join [SPACE] (split text)).

(** What came back from the completion request: nothing usable (an
    exception while sending or decoding), or a status code with the content
    of the first choice, [None] when reading it raises. *)
Inductive Reply : Type :=
| NoReply
| HttpReply (status_code : Z) (content : option pystr).

(** Lines 105-142. The literals of [rules] are read as code points, like
    every string the function returns. *)
Definition ai_insight_or_rules (OPENAI_KEY : option string) (facts : Facts)
    (reply : Reply) : pystr :=
  if falsy OPENAI_KEY then decode (rules facts)
  else match reply with
       | NoReply => decode (rules facts)
       | HttpReply status_code content =>
           if negb (status_code =? 200) then decode (rules facts)
           else match content with
                | None => decode (rules facts)
                | Some text => single_line text
                end
       end.

End Whitespace.

(** Python's whitespace code points. *)
Definition py_isspace (c : N) : bool :=
  ((9 <=? c) && (c <=? 13) || (28 <=? c) && (c <=? 32)
   || (c =? 133) || (c =? 160) || (c =? 5760)
   || (8192 <=? c) && (c <=? 8202)
   || (c =? 8232) || (c =? 8233) || (c =? 8239) || (c =? 8287)
   || (c =? 12288))%N.

(** *** High and low of the next 24 points (lines 147-157) *)

(** The keys of an hourly point the summary reads: ["dt"] and ["temp"]. *)
Record Point := mkPoint {
  dt : option Z;
  temp : option Q
}.

(** [max(l)] and [min(l)] on a non-empty list, first element [best]. *)
Fixpoint py_max (best : Q) (l : list Q) : Q :=
  match l with
  | [] => best
  | x :: l' => py_max (if Qgtb x best then x else best) l'
  end.

Fixpoint py_min (best : Q) (l : list Q) : Q :=
  match l with
  | [] => best
  | x :: l' => py_min (if Qgtb best x then x else best) l'
  end.

(** [[h.get("temp") for h in points if h.get("temp") is not None]] *)
Fixpoint temps (points : list Point) : list Q :=
  match points with
  | [] => []
  | h :: points' =>
      match temp h with
      | Some t => t :: temps points'
      | None => temps points'
      end
  end.

(** Line 150. [current_temp] is the ["temp"] entry of the current
    conditions: absent, or present with a number or null. The default is
    computed before the lookup. *)
Definition now_temp (current_temp : option (option Q)) (hourly : list Point)
  : outcome (option Q) :=
  match hourly with
  | [] => Fail IndexError
  | h0 :: _ =>
      Done (match current_temp with
            | Some v => v
            | None => temp h0
            end)
  end.

(** Lines 150 and 154-157: [(high, low)]. *)
Definition high_low (current_temp : option (option Q)) (hourly : list Point)
  : outcome (Z * Z) :=
  match now_temp current_temp hourly with
  | Fail e => Fail e
  | Done now_t =>
      match temps (firstn 24 hourly) with
      | t0 :: ts => Done (py_round (py_max t0 ts), py_round (py_min t0 ts))
      | [] =>
          match now_t with
          | Some n => Done (py_round n, py_round n)
          | None => Fail TypeError
          end
      end
  end.

(** *** Time blocks (lines 18-23 and 165-180) *)

(** A block: emoji, name and the half-open range of local hours. *)
Definition Block : Type := string * string * (Z * Z).

Definition BLOCKS : list Block :=
  [ ("ðŸŒ…", "Morning", (5, 11));
    ("ðŸŒž", "Noon", (11, 16));
    ("ðŸŒ†", "Evening", (16, 20));
    ("ðŸŒ™", "Night", (20, 24)) ].

(** [x in range(a, b)] *)
Definition in_range (x : Z) (hours : Z * Z) : bool :=
  (fst hours <=? x) && (x <? snd hours).

Section Blocks.

(** [datetime.fromtimestamp(ts, TZ).hour] *)
Variable local_hour : Z -> Z.

(** The inner loop, lines 168-176. *)
Fixpoint block_temps (hours : Z * Z) (next24 : list Point) : list Q :=
  match next24 with
  | [] => []
  | h :: rest =>
      match dt h with
      | None => block_temps hours rest
      | Some ts =>
          if ts =? 0 then block_temps hours rest
          else if in_range (local_hour ts) hours
               then match temp h with
                    | Some t => t :: block_temps hours rest
                    | None => block_temps hours rest
                    end
               else block_temps hours rest
      end
  end.

(** Lines 166-180. *)
Definition block_ranges (next24 : list Point) : list (string * string) :=
  map (fun b : Block =>
         let '(emoji, _, hours) := b in
         match block_temps hours next24 with
         | t0 :: ts =>
             (emoji, dash_range (Some (py_min t0 ts)) (Some (py_max t0 ts)))
         | [] => (emoji, "--")
         end)
      BLOCKS.

End Blocks.

End WeatherPush.

(** A point is usable for the blocks when it has a non-zero timestamp and a
    temperature. *)
Definition usable (h : WeatherPush.Point) : bool :=
  match WeatherPush.dt h, WeatherPush.temp h with
  | Some ts, Some _ => negb (ts =? 0)
  | _, _ => false
  end.

(** The local hour of a point that has a timestamp. *)
Definition hour_of (local_hour : Z -> Z) (h : WeatherPush.Point) : Z :=
  match WeatherPush.dt h with
  | Some ts => local_hour ts
  | None => 0
  end.

(** ** The alert script with failing delivery and an unchecked state file

    A second reading of rain_alert.py, lines 43-142, for what the first one
    leaves out: [requests.post] inside [send_push] may raise, and nothing
    catches it; the state file is decoded as it is, so its keys may be
    absent. Whether each of the two possible posts returns is an input of a
    run. The rain loop, the crossing test, the selection and the quiet hours
    are the definitions above. *)
Module Delivery.

(** What stops a run: an exception of the script's own code, or the one
    [requests.post] raises. *)
Inductive Stop : Type :=
| Uncaught (e : Exn)
| RequestException.

(** The object decoded from the state file; either key may be absent. *)
Record StateFile := mkStateFile {
  file_rain_alerted : option bool;
  file_last_feels_like : option Q
}.

Definition set_rain_alerted (b : bool) (s : StateFile) : StateFile :=
  {| file_rain_alerted := Some b;
     file_last_feels_like := file_last_feels_like s |}.

Definition set_last_feels_like (v : Q) (s : StateFile) : StateFile :=
  {| file_rain_alerted := file_rain_alerted s;
     file_last_feels_like := Some v |}.

(** A [Push] is a call of [send_push], whether or not its post returns. *)
Inductive Event : Type :=
| Push (title : string) (message : Message) (priority : Z)
| Save (state : StateFile).

Inductive outcome (A : Type) : Type :=
| Returned (a : A)
| Stopped (s : Stop).
Arguments Returned {A} a.
Arguments Stopped {A} s.

Definition P (A : Type) : Type := list Event * outcome A.

Definition ret {A} (a : A) : P A := ([], Returned a).

Definition bind {A B} (m : P A) (k : A -> P B) : P B :=
  match m with
  | (evs, Stopped s) => (evs, Stopped s)
  | (evs, Returned a) => let (evs', r) := k a in (evs ++ evs', r)
  end.

(** A computation of the script's own code, which sends nothing. *)
Definition lift {A} (r : result A) : P A :=
  match r with
  | Ok a => ([], Returned a)
  | Raise e => ([], Stopped (Uncaught e))
  end.

(** Lines 43-55; [delivered] tells whether [requests.post] returns. *)
Definition send_push (delivered : bool) (title : string) (message : Message)
    (priority : Z) : P unit :=
  ([Push title message priority],
   if delivered then Returned tt else Stopped RequestException).

(** Lines 57-64. *)
Definition load_state (file : option StateFile) : StateFile :=
  match file with
  | Some s => s
  | None => {| file_rain_alerted := Some false; file_last_feels_like := None |}
  end.

Definition save_state (state : StateFile) : P unit :=
  ([Save state], Returned tt).

(** Lines 89-108. The flag is read only when rain is detected. *)
Definition rain_section (rain_ok : bool) (data : Data) (state : StateFile)
  : P StateFile :=
  bind (lift (rain_loop (lookahead data))) (fun r =>
  let '(rain_soon, rain_time) := r in
  bind (if rain_soon
        then bind (lift (subscript "rain_alerted" (file_rain_alerted state)))
               (fun alerted =>
                  if negb alerted
                  then bind (send_push rain_ok RAIN_TITLE
                               (RainMessage rain_time) 1)
                         (fun _ => ret (set_rain_alerted true state))
                  else ret state)
        else ret state) (fun state =>
  ret (if negb rain_soon then set_rain_alerted false state else state))).

(** Lines 123-138. *)
Definition notify_cold (cold_ok : bool) (hour current_temp current_feels : Z)
    (alert : option Threshold) : P unit :=
  match alert with
  | Some (threshold, title, advice) =>
      if negb (is_quiet_hours hour && (0 <? threshold))
      then send_push cold_ok title
             (ColdMessage current_temp current_feels advice)
             (if threshold <=? 0 then 2 else 1)
      else ret tt
  | None => ret tt
  end.

(** Lines 110-141. *)
Definition cold_section (cold_ok : bool) (data : Data) (hour : Z)
    (state : StateFile) : P StateFile :=
  bind (lift (subscript "current" (current data))) (fun c =>
  bind (lift (subscript "temp" (temp c))) (fun t =>
  let current_temp := py_round t in
  bind (lift (subscript "feels_like" (feels_like c))) (fun f =>
  let current_feels := py_round f in
  let last_feels := file_last_feels_like state in
  bind (notify_cold cold_ok hour current_temp current_feels
          (alert_to_send last_feels current_feels)) (fun _ =>
  ret (set_last_feels_like (inject_Z current_feels) state))))).

(** Lines 87-142; [rain_ok] and [cold_ok] tell whether the post of the rain
    and of the cold notification returns, should it be made. *)
Definition run (rain_ok cold_ok : bool) (data : Data) (hour : Z)
    (file : option StateFile) : P unit :=
  bind (rain_section rain_ok data (load_state file)) (fun state =>
  bind (cold_section cold_ok data hour state) (fun state =>
  save_state state)).

(** The whole script, with the guard of lines 35-37. *)
Definition script (env : Env) (rain_ok cold_ok : bool) (data : Data)
    (hour : Z) (file : option StateFile) : P unit :=
  if falsy (OW_KEY env) || falsy (PUSH_TOKEN env) || falsy (PUSH_USER env)
  then ([], Stopped (Uncaught (SystemExit 1)))
  else run rain_ok cold_ok data hour file.

Fixpoint disk_after (file : option StateFile) (evs : list Event)
  : option StateFile :=
  match evs with
  | [] => file
  | Save s :: evs' => disk_after (Some s) evs'
  | Push _ _ _ :: evs' => disk_after file evs'
  end.

Definition is_save (e : Event) : bool :=
  match e with Save _ => true | Push _ _ _ => false end.

Definition is_rain_push (e : Event) : bool :=
  match e with
  | Push title _ _ => (title =? RAIN_TITLE)%string
  | Save _ => false
  end.

Definition is_cold_push (e : Event) : bool :=
  match e with
  | Push title _ _ =>
      existsb (fun t => (th_title t =? title)%string) COLD_THRESHOLDS
  | Save _ => false
  end.

(** A state of the first reading of the script, as a state file. *)
Definition of_state (s : State) : StateFile :=
  {| file_rain_alerted := Some (rain_alerted s);
     file_last_feels_like := last_feels_like s |}.

End Delivery.

(** The events and the outcome of the first reading of the script, in the
    second. *)
Definition of_event (e : Event) : Delivery.Event :=
  match e with
  | Push title message priority => Delivery.Push title message priority
  | Save st => Delivery.Save (Delivery.of_state st)
  end.

Definition of_result {A} (r : result A) : Delivery.outcome A :=
  match r with
  | Ok a => Delivery.Returned a
  | Raise e => Delivery.Stopped (Delivery.Uncaught e)
  end.

(** ** Sample inputs *)

(** A response with complete current conditions. *)
Definition reading (t f : Q) (hs : option (list HourlyPoint)) : Data :=
  mkData (Some (mkCurrent (Some t) (Some f))) hs.

(** A state file holding a previous feels-like reading. *)
Definition state_with (prev : Q) : State :=
  mkState false (Some prev).

(** An hourly point tagged as rain. *)
Definition rainy_hour : HourlyPoint :=
  mkHourlyPoint (Some 1700000000) None (Some [mkWeatherTag (Some "Rain")]).

(** A response with rain ahead and no current temperature. *)
Definition rainy_no_temp : Data :=
  mkData (Some (mkCurrent None (Some (4 # 1)))) (Some [rainy_hour]).

Example sorted_thresholds : sorted_reverse COLD_THRESHOLDS = COLD_THRESHOLDS.
Proof. reflexivity. Qed.

Example round_half_even :
  map py_round [1 # 2; 3 # 2; 5 # 2; -1 # 2; 4 # 10; -3 # 1; 27 # 10]
  = [0; 2; 2; 0; 0; -3; 3].
Proof. reflexivity. Qed.

(** ** Numbers and the crossing test *)

Lemma Qgtb_true (a b : Q) : Qgtb a b = true <-> (b < a)%Q.
Proof.
  unfold Qgtb. rewrite negb_true_iff. split; intro H.
  - apply Qnot_le_lt. intro H'. apply Qle_bool_iff in H'. congruence.
  - destruct (Qle_bool a b) eqn:E; [|reflexivity].
    apply Qle_bool_iff in E. exfalso. exact (Qlt_not_le _ _ H E).
Qed.

Lemma Qgtb_inject_Z (a b : Z) : Qgtb (inject_Z a) (inject_Z b) = (b <? a).
Proof.
  destruct (b <? a) eqn:E.
  - apply Qgtb_true. rewrite <- Zlt_Qlt. now apply Z.ltb_lt.
  - destruct (Qgtb (inject_Z a) (inject_Z b)) eqn:G; [|reflexivity].
    apply Qgtb_true in G. rewrite <- Zlt_Qlt in G.
    apply Z.ltb_lt in G. congruence.
Qed.

Lemma crossed_iff (prev : option Q) (curr T : Z) :
  crossed prev curr T = true <->
  exists p, prev = Some p /\ (inject_Z T < p)%Q /\ curr <= T.
Proof.
  unfold crossed. destruct prev as [p|].
  - rewrite andb_true_iff, Qgtb_true, Z.leb_le. split.
    + intros [H1 H2]. exists p. auto.
    + intros (q & E & H1 & H2). injection E as <-. auto.
  - split; [discriminate|]. intros (q & E & _). discriminate.
Qed.

Lemma crossed_None (curr T : Z) : crossed None curr T = false.
Proof. reflexivity. Qed.

(** A reading already at or below the threshold cannot cross it. *)
Lemma crossed_below (p curr T : Z) :
  p <= T -> crossed (Some (inject_Z p)) curr T = false.
Proof.
  intro H. unfold crossed. rewrite Qgtb_inject_Z.
  replace (T <? p) with false; [reflexivity|].
  symmetry. apply Z.ltb_ge. exact H.
Qed.

(** [py_round] is within half a degree of its argument. *)
Lemma py_round_nearest (x : Q) :
  (inject_Z (py_round x) - (1 # 2) <= x /\ x <= inject_Z (py_round x) + (1 # 2))%Q.
Proof.
  unfold py_round.
  pose proof (Qfloor_le x) as Hlo. pose proof (Qlt_floor x) as Hhi.
  set (f := Qfloor x) in *.
  rewrite inject_Z_plus in Hhi. change (inject_Z 1) with 1%Q in Hhi.
  destruct (Qcompare (x - inject_Z f) (1 # 2)) eqn:C;
    [ apply Qeq_alt in C; destruct (Z.even f)
    | apply Qlt_alt in C
    | apply Qgt_alt in C ];
    rewrite ?inject_Z_plus; change (inject_Z 1) with 1%Q;
    generalize dependent (inject_Z f); intros; lra.
Qed.

(** ** The shape of an invocation *)

Lemma notify_cold_ok (hour ct cf : Z) (a : option Threshold) :
  snd (notify_cold hour ct cf a) = Ok tt.
Proof.
  unfold notify_cold. destruct a as [[[T title] advice]|]; [|reflexivity].
  destruct (negb _); reflexivity.
Qed.

Lemma rain_state_last_feels (rs : bool) (st : State) :
  last_feels_like (rain_state rs st) = last_feels_like st.
Proof. unfold rain_state. destruct rs, (rain_alerted st); reflexivity. Qed.

Lemma rain_section_ok (data : Data) (st : State) rs rt :
  rain_loop (lookahead data) = Ok (rs, rt) ->
  rain_section data st = (rain_events rs rt st, Ok (rain_state rs st)).
Proof.
  intro H. unfold rain_section, rain_events, rain_state, lift, bind.
  rewrite H. destruct rs, (rain_alerted st); reflexivity.
Qed.

Lemma rain_section_raise (data : Data) (st : State) e :
  rain_loop (lookahead data) = Raise e ->
  rain_section data st = ([], Raise e).
Proof.
  intro H. unfold rain_section, lift, bind. rewrite H. reflexivity.
Qed.

Lemma cold_section_ok (data : Data) (hour : Z) (st : State) t f :
  current_fields data = Some (t, f) ->
  cold_section data hour st =
  (fst (notify_cold hour (py_round t) (py_round f)
          (alert_to_send (last_feels_like st) (py_round f))),
   Ok (set_last_feels_like (Some (inject_Z (py_round f))) st)).
Proof.
  unfold current_fields, cold_section. intro H.
  destruct (current data) as [c|]; [|discriminate]. cbn [subscript lift bind].
  destruct (temp c) as [t'|]; [|discriminate]. cbn [subscript lift bind].
  destruct (feels_like c) as [f'|]; [|discriminate]. cbn [subscript lift bind].
  injection H as -> ->.
  pose proof (notify_cold_ok hour (py_round t) (py_round f)
                (alert_to_send (last_feels_like st) (py_round f))) as Hok.
  destruct (notify_cold _ _ _ _) as [evs r]. cbn [snd] in Hok. subst r.
  unfold bind, ret. cbn [fst app]. now rewrite app_nil_r.
Qed.

Lemma cold_section_missing (data : Data) (hour : Z) (st : State) :
  current_fields data = None ->
  exists key, cold_section data hour st = ([], Raise (KeyError key)).
Proof.
  unfold current_fields, cold_section. intro H.
  destruct (current data) as [c|]; [|eexists; reflexivity].
  cbn [subscript lift bind].
  destruct (temp c) as [t|]; [|eexists; reflexivity].
  cbn [subscript lift bind].
  destruct (feels_like c) as [f|]; [discriminate|eexists; reflexivity].
Qed.

(** A run whose rain loop ends normally and whose current conditions are
    complete: rain events, then cold events, then one save. *)
Lemma run_complete (data : Data) (hour : Z) (file : option State) rs rt t f :
  rain_loop (lookahead data) = Ok (rs, rt) ->
  current_fields data = Some (t, f) ->
  run data hour file =
  (rain_events rs rt (load_state file)
     ++ fst (notify_cold hour (py_round t) (py_round f)
               (alert_to_send (last_feels_like (load_state file)) (py_round f)))
     ++ [Save (set_last_feels_like (Some (inject_Z (py_round f)))
                 (rain_state rs (load_state file)))],
   Ok tt).
Proof.
  intros Hr Hc. unfold run.
  rewrite (rain_section_ok _ _ _ _ Hr). cbn [bind].
  rewrite (cold_section_ok _ _ _ _ _ Hc). cbn [bind save_state].
  rewrite rain_state_last_feels. reflexivity.
Qed.

Lemma run_rain_raise (data : Data) (hour : Z) (file : option State) e :
  rain_loop (lookahead data) = Raise e ->
  run data hour file = ([], Raise e).
Proof.
  intro H. unfold run. rewrite (rain_section_raise _ _ _ H). reflexivity.
Qed.

Lemma run_missing (data : Data) (hour : Z) (file : option State) rs rt :
  rain_loop (lookahead data) = Ok (rs, rt) ->
  current_fields data = None ->
  exists key,
    run data hour file =
    (rain_events rs rt (load_state file), Raise (KeyError key)).
Proof.
  intros Hr Hc. unfold run.
  rewrite (rain_section_ok _ _ _ _ Hr). cbn [bind].
  destruct (cold_section_missing data hour (rain_state rs (load_state file)) Hc)
    as [key ->].
  exists key. cbn. now rewrite ?app_nil_r.
Qed.

Lemma run_cases (data : Data) (hour : Z) (file : option State) :
  run_shape data hour file.
Proof.
  destruct (rain_loop (lookahead data)) as [[rs rt]|e] eqn:Hr.
  - destruct (current_fields data) as [[t f]|] eqn:Hc.
    + eapply shape_complete; eauto using run_complete.
    + destruct (run_missing data hour file rs rt Hr Hc) as [key Hk].
      eapply shape_missing; eauto.
  - eapply shape_rain_raise; eauto using run_rain_raise.
Qed.

(** The guard of the script: without all three credentials nothing runs. *)
Lemma script_guard (env : Env) data hour file :
  script env data hour file =
  if falsy (OW_KEY env) || falsy (PUSH_TOKEN env) || falsy (PUSH_USER env)
  then ([], Raise (SystemExit 1))
  else run data hour file.
Proof. reflexivity. Qed.

Lemma script_with_credentials k t u data hour file :
  k <> "" -> t <> "" -> u <> "" ->
  script (mkEnv (Some k) (Some t) (Some u)) data hour file
  = run data hour file.
Proof.
  intros Hk Ht Hu. unfold script, falsy. cbn [OW_KEY PUSH_TOKEN PUSH_USER].
  apply String.eqb_neq in Hk, Ht, Hu. now rewrite Hk, Ht, Hu.
Qed.

(** ** Sorting the table *)

Lemma insert_desc_perm x l : Permutation (x :: l) (insert_desc x l).
Proof.
  induction l as [|y l IH]; cbn; [reflexivity|].
  destruct (tuple_ltb x y); [|reflexivity].
  rewrite perm_swap. now apply perm_skip.
Qed.

Lemma sorted_reverse_perm l : Permutation l (sorted_reverse l).
Proof.
  induction l as [|x l IH]; cbn; [reflexivity|].
  rewrite <- insert_desc_perm. now apply perm_skip.
Qed.

Lemma tuple_ltb_asym a b : tuple_ltb a b = true -> tuple_ltb b a = false.
Proof.
  unfold tuple_ltb, String.ltb.
  rewrite (Z.compare_antisym (th_value a) (th_value b)).
  rewrite (String.compare_antisym (th_title b) (th_title a)).
  rewrite (String.compare_antisym (th_advice b) (th_advice a)).
  destruct (th_value a ?= th_value b); cbn; try congruence.
  destruct (String.compare (th_title a) (th_title b)); cbn; try congruence.
  destruct (String.compare (th_advice a) (th_advice b)); cbn; congruence.
Qed.

(** No element of the result is below its successor. *)
Lemma insert_desc_sorted x l :
  Sorted (fun a b => tuple_ltb a b = false) l ->
  Sorted (fun a b => tuple_ltb a b = false) (insert_desc x l).
Proof.
  induction 1 as [|y l Hs IH Hd]; cbn; [repeat constructor|].
  destruct (tuple_ltb x y) eqn:E.
  - constructor; [exact IH|].
    destruct Hd as [|z l Hz]; cbn.
    + constructor. now apply tuple_ltb_asym.
    + destruct (tuple_ltb x z); constructor;
        [exact Hz | now apply tuple_ltb_asym].
  - constructor; [now constructor | now constructor].
Qed.

Lemma sorted_reverse_sorted l :
  Sorted (fun a b => tuple_ltb a b = false) (sorted_reverse l).
Proof.
  induction l as [|x l IH]; cbn; [constructor|].
  now apply insert_desc_sorted.
Qed.

(** ** Reading traces *)

Lemma saves_app (a b : list Event) : saves (a ++ b) = (saves a + saves b)%nat.
Proof. unfold saves. now rewrite filter_app, length_app. Qed.

Lemma rain_pushes_app (a b : list Event) :
  rain_pushes (a ++ b) = (rain_pushes a + rain_pushes b)%nat.
Proof. unfold rain_pushes. now rewrite filter_app, length_app. Qed.

Lemma cold_pushes_app (a b : list Event) :
  cold_pushes (a ++ b) = (cold_pushes a + cold_pushes b)%nat.
Proof. unfold cold_pushes. now rewrite filter_app, length_app. Qed.

Lemma cold_fired_app (T : Z) (a b : list Event) :
  cold_fired T (a ++ b) = cold_fired T a || cold_fired T b.
Proof. unfold cold_fired. apply existsb_app. Qed.

Lemma disk_after_app (file : option State) (a b : list Event) :
  disk_after file (a ++ b) = disk_after (disk_after file a) b.
Proof.
  revert file. induction a as [|e a IH]; intro file; [reflexivity|].
  destruct e; cbn; apply IH.
Qed.

Lemma disk_after_no_save (file : option State) (evs : list Event) :
  saves evs = 0%nat -> disk_after file evs = file.
Proof.
  induction evs as [|e evs IH]; [reflexivity|].
  destruct e; cbn; [exact IH | discriminate].
Qed.

(** The rain section sends at most its own notification. *)
Lemma rain_events_trace rs rt st :
  saves (rain_events rs rt st) = 0%nat
  /\ cold_pushes (rain_events rs rt st) = 0%nat
  /\ (forall T, cold_fired T (rain_events rs rt st) = false)
  /\ rain_pushes (rain_events rs rt st)
     = (if rs && negb (rain_alerted st) then 1 else 0)%nat.
Proof.
  unfold rain_events.
  destruct (rs && negb (rain_alerted st)); repeat split; try reflexivity.
  intro T. cbn. now rewrite !andb_false_r.
Qed.

(** The selection loop returns a row of the table whose threshold is
    crossed, or nothing when none is. *)
Lemma alert_to_send_Some prev curr t :
  alert_to_send prev curr = Some t ->
  In t COLD_THRESHOLDS /\ crossed prev curr (th_value t) = true.
Proof.
  unfold alert_to_send. rewrite sorted_thresholds. apply find_some.
Qed.

Lemma alert_to_send_None prev curr :
  alert_to_send prev curr = None ->
  forall t, In t COLD_THRESHOLDS -> crossed prev curr (th_value t) = false.
Proof.
  unfold alert_to_send. rewrite sorted_thresholds. apply find_none.
Qed.

Lemma notify_cold_events hour ct cf (a : option Threshold) :
  fst (notify_cold hour ct cf a) =
  match a with
  | Some (T, title, advice) =>
      if is_quiet_hours hour && (0 <? T) then []
      else [Push title (ColdMessage ct cf advice) (if T <=? 0 then 2 else 1)]
  | None => []
  end.
Proof.
  unfold notify_cold. destruct a as [[[T title] advice]|]; [|reflexivity].
  destruct (is_quiet_hours hour && (0 <? T)); reflexivity.
Qed.

Lemma is_quiet_hours_iff hour :
  is_quiet_hours hour = true <-> 23 <= hour \/ hour < 6.
Proof.
  unfold is_quiet_hours, QUIET_START, QUIET_END.
  rewrite orb_true_iff, Z.leb_le, Z.ltb_lt. reflexivity.
Qed.

(** What the cold part of a run sends, for a row of the table. *)
Lemma notify_cold_trace hour ct cf (a : option Threshold) :
  (forall t, a = Some t -> In t COLD_THRESHOLDS) ->
  let evs := fst (notify_cold hour ct cf a) in
  saves evs = 0%nat
  /\ rain_pushes evs = 0%nat
  /\ (cold_pushes evs <= 1)%nat
  /\ (forall T, cold_fired T evs = true ->
        exists t, a = Some t /\ th_value t = T).
Proof.
  intros Hin evs. subst evs. rewrite notify_cold_events.
  assert (Hnil : saves [] = 0%nat /\ rain_pushes [] = 0%nat
                 /\ (cold_pushes [] <= 1)%nat
                 /\ (forall T, cold_fired T [] = true ->
                       exists t, a = Some t /\ th_value t = T)).
  { split; [reflexivity | split; [reflexivity | split; [cbn; lia|]]].
    intros T HT. discriminate. }
  destruct a as [t|]; [|exact Hnil].
  specialize (Hin t eq_refl).
  destruct t as [[T title] advice].
  destruct (is_quiet_hours hour && (0 <? T)); [exact Hnil|]. clear Hnil.
  cbn in Hin.
  destruct Hin as [E|[E|[E|[E|[]]]]]; injection E as <- <- <-;
    (split; [reflexivity | split; [reflexivity | split; [cbn; lia|]]]);
    intros T' HT'; eexists; (split; [reflexivity|]);
    cbn -[Z.eqb] in HT';
    rewrite ?andb_false_r, ?andb_true_r, ?orb_false_r, ?orb_false_l in HT';
    apply Z.eqb_eq in HT'; exact HT'.
Qed.

(** The loop stops at the highest-valued crossed threshold. *)
Lemma alert_to_send_highest prev curr t :
  alert_to_send prev curr = Some t ->
  forall t', In t' COLD_THRESHOLDS ->
             crossed prev curr (th_value t') = true ->
             th_value t' <= th_value t.
Proof.
  unfold alert_to_send. rewrite sorted_thresholds.
  cbn [find COLD_THRESHOLDS th_value fst].
  destruct (crossed prev curr 15) eqn:E15;
    [|destruct (crossed prev curr 10) eqn:E10;
      [|destruct (crossed prev curr 5) eqn:E5;
        [|destruct (crossed prev curr 0) eqn:E0]]];
    intro H; [injection H as <-..|discriminate];
    intros t' [<-|[<-|[<-|[<-|[]]]]] Hc; cbn in *; try lia; congruence.
Qed.

(** What a run can send for the cold section. *)
Lemma run_cold_fired data hour file T :
  cold_fired T (fst (run data hour file)) = true ->
  exists t f th,
    current_fields data = Some (t, f)
    /\ alert_to_send (last_feels_like (load_state file)) (py_round f) = Some th
    /\ th_value th = T.
Proof.
  destruct (run_cases data hour file) as [e _ ->|rs rt key _ _ ->|rs rt t f _ Hc ->];
    cbn [fst].
  - discriminate.
  - destruct (rain_events_trace rs rt (load_state file)) as (_ & _ & Hr & _).
    rewrite Hr. discriminate.
  - destruct (rain_events_trace rs rt (load_state file)) as (_ & _ & Hr & _).
    rewrite !cold_fired_app, Hr, orb_false_l.
    change (cold_fired T [Save _]) with false. rewrite orb_false_r.
    intro H.
    destruct (notify_cold_trace hour (py_round t) (py_round f)
                (alert_to_send (last_feels_like (load_state file)) (py_round f)))
      as (_ & _ & _ & Hf).
    { intros th Hth. now apply alert_to_send_Some in Hth. }
    destruct (Hf T H) as (th & Hth & Hv). exists t, f, th. auto.
Qed.

Lemma run_cold_pushes data hour file :
  (cold_pushes (fst (run data hour file)) <= 1)%nat.
Proof.
  destruct (run_cases data hour file) as [e _ ->|rs rt key _ _ ->|rs rt t f _ Hc ->];
    cbn [fst].
  - cbn. lia.
  - destruct (rain_events_trace rs rt (load_state file)) as (_ & -> & _). lia.
  - destruct (rain_events_trace rs rt (load_state file)) as (_ & Hr & _).
    rewrite !cold_pushes_app, Hr.
    destruct (notify_cold_trace hour (py_round t) (py_round f)
                (alert_to_send (last_feels_like (load_state file)) (py_round f)))
      as (_ & _ & Hle & _).
    { intros th Hth. now apply alert_to_send_Some in Hth. }
    cbn -[notify_cold] in *. lia.
Qed.

(** ** C1: selection among several crossed thresholds *)

(** C1. Every invocation sends at most one cold notification, but when
    several thresholds are crossed in one step the loop does not pick the
    most severe one: it walks the table from the highest value down and
    stops at the first crossed row. With a previous reading of 16 and a
    current reading of -3 the run sends the 15-degree alert, at priority 1,
    and the 0-degree alert is not sent. *)
Theorem C1_large_drop_selects_highest_threshold :
  (forall data hour file, (cold_pushes (fst (run data hour file)) <= 1)%nat)
  /\ (forall prev curr t, alert_to_send prev curr = Some t ->
        forall t', In t' COLD_THRESHOLDS ->
                   crossed prev curr (th_value t') = true ->
                   th_value t' <= th_value t)
  /\ alert_to_send (Some (16 # 1)) (-3)
     = Some (15, "🧥 Cool Weather Alert", "A light jacket may be useful.")
  /\ run (reading (-3 # 1) (-3 # 1) (Some [])) 12 (Some (state_with (16 # 1)))
     = ([Push "🧥 Cool Weather Alert"
           (ColdMessage (-3) (-3) "A light jacket may be useful.") 1;
         Save (mkState false (Some (inject_Z (-3))))], Ok tt)
  /\ cold_fired 0
       (fst (run (reading (-3 # 1) (-3 # 1) (Some [])) 12
               (Some (state_with (16 # 1))))) = false.
Proof.
  split; [exact run_cold_pushes|].
  split; [exact alert_to_send_highest|].
  repeat split; reflexivity.
Qed.

(** ** Completed runs *)

Lemma run_ok_inv data hour file :
  snd (run data hour file) = Ok tt ->
  exists rs rt t f,
    rain_loop (lookahead data) = Ok (rs, rt)
    /\ current_fields data = Some (t, f)
    /\ fst (run data hour file) =
       (rain_events rs rt (load_state file)
          ++ fst (notify_cold hour (py_round t) (py_round f)
                    (alert_to_send (last_feels_like (load_state file))
                       (py_round f))))
       ++ [Save (set_last_feels_like (Some (inject_Z (py_round f)))
                   (rain_state rs (load_state file)))].
Proof.
  destruct (run_cases data hour file) as [e _ ->|rs rt key _ _ ->|rs rt t f Hr Hc ->];
    cbn [snd fst]; try discriminate.
  intros _. exists rs, rt, t, f. now rewrite app_assoc.
Qed.

Lemma run_prefix_no_save hour rs rt st ct cf prev :
  saves (rain_events rs rt st
           ++ fst (notify_cold hour ct cf (alert_to_send prev cf))) = 0%nat.
Proof.
  rewrite saves_app.
  destruct (rain_events_trace rs rt st) as (-> & _).
  destruct (notify_cold_trace hour ct cf (alert_to_send prev cf)) as (-> & _);
    [|reflexivity].
  intros th Hth. now apply alert_to_send_Some in Hth.
Qed.

(** The file after a completed run holds the rounded current reading. *)
Lemma run_ok_disk data hour file t f :
  snd (run data hour file) = Ok tt ->
  current_fields data = Some (t, f) ->
  exists st',
    disk_after file (fst (run data hour file)) = Some st'
    /\ last_feels_like st' = Some (inject_Z (py_round f)).
Proof.
  intros Hok Hc.
  destruct (run_ok_inv _ _ _ Hok) as (rs & rt & t' & f' & _ & Hc' & ->).
  rewrite Hc in Hc'. injection Hc' as <- <-.
  eexists. rewrite disk_after_app. cbn [disk_after]. split; reflexivity.
Qed.

(** ** C2: the crossing rule *)

Lemma crossed_downward prev curr T :
  crossed prev curr T = true <-> downward_crossing prev curr T.
Proof. apply crossed_iff. Qed.

Lemma fired_is_crossed data hour file T :
  cold_fired T (fst (run data hour file)) = true ->
  exists t f,
    current_fields data = Some (t, f)
    /\ downward_crossing (last_feels_like (load_state file)) (py_round f) T.
Proof.
  intro H. destruct (run_cold_fired _ _ _ _ H) as (t & f & th & Hc & Ha & <-).
  exists t, f. split; [exact Hc|].
  apply crossed_downward. now apply alert_to_send_Some in Ha.
Qed.

(** The alert of a row of the table is recognised in a trace by its title. *)
Lemma cold_fired_row row m p :
  In row COLD_THRESHOLDS ->
  cold_fired (th_value row) [Push (th_title row) m p] = true.
Proof.
  intros [<-|[<-|[<-|[<-|[]]]]]; reflexivity.
Qed.

Lemma alert_to_send_exists prev curr t :
  In t COLD_THRESHOLDS ->
  crossed prev curr (th_value t) = true ->
  exists t0, alert_to_send prev curr = Some t0.
Proof.
  intros Hin Hc. destruct (alert_to_send prev curr) as [t0|] eqn:E; [eauto|].
  rewrite (alert_to_send_None _ _ E t Hin) in Hc. discriminate.
Qed.

Lemma suppressed_iff hour T :
  is_quiet_hours hour && (0 <? T) = true <-> quiet hour /\ 0 < T.
Proof.
  rewrite andb_true_iff, is_quiet_hours_iff, Z.ltb_lt. reflexivity.
Qed.

(** When, exactly, the alert of T is among the events of a run. *)
Lemma cold_fired_iff data hour file T :
  cold_fired T (fst (run data hour file)) = true <->
  exists rs rt t f row,
    rain_loop (lookahead data) = Ok (rs, rt)
    /\ current_fields data = Some (t, f)
    /\ downward_crossing (last_feels_like (load_state file)) (py_round f) T
    /\ alert_to_send (last_feels_like (load_state file)) (py_round f) = Some row
    /\ th_value row = T
    /\ ~ (quiet hour /\ 0 < T).
Proof.
  split.
  - destruct (run_cases data hour file)
      as [e _ ->|rs rt key _ _ ->|rs rt t f Hr Hc ->]; cbn [fst].
    + discriminate.
    + destruct (rain_events_trace rs rt (load_state file)) as (_ & _ & Hn & _).
      rewrite Hn. discriminate.
    + destruct (rain_events_trace rs rt (load_state file)) as (_ & _ & Hn & _).
      rewrite !cold_fired_app, Hn, orb_false_l.
      change (cold_fired T [Save _]) with false. rewrite orb_false_r.
      intro H.
      destruct (notify_cold_trace hour (py_round t) (py_round f)
                  (alert_to_send (last_feels_like (load_state file))
                     (py_round f))) as (_ & _ & _ & Hf).
      { intros th Hth. now apply alert_to_send_Some in Hth. }
      destruct (Hf T H) as (row & Hrow & Hv).
      exists rs, rt, t, f, row.
      split; [exact Hr|]. split; [exact Hc|].
      split.
      { apply crossed_downward. rewrite <- Hv.
        now apply alert_to_send_Some in Hrow. }
      split; [exact Hrow|]. split; [exact Hv|].
      intro Hq. apply suppressed_iff in Hq.
      rewrite notify_cold_events, Hrow in H.
      destruct row as [[T0 title] advice]. cbn in Hv. subst T0.
      rewrite Hq in H. discriminate.
  - intros (rs & rt & t & f & row & Hr & Hc & _ & Hrow & Hv & Hq).
    rewrite (run_complete _ hour file _ _ _ _ Hr Hc). cbn [fst].
    rewrite !cold_fired_app, notify_cold_events, Hrow.
    pose proof (alert_to_send_Some _ _ _ Hrow) as [Hin _].
    destruct row as [[T0 title] advice]. cbn in Hv. subst T0.
    destruct (is_quiet_hours hour && (0 <? T)) eqn:E.
    { apply suppressed_iff in E. contradiction. }
    rewrite (cold_fired_row (T, title, advice) _ _ Hin).
    now rewrite orb_true_r.
Qed.

(** C2, as amended. A threshold T is crossed exactly when the previous
    reading exists, is strictly above T, and the current reading is at or
    below T. In a run, the alert of T is sent if and only if the run reaches
    the cold section, T is crossed, T is the threshold of the one row the
    loop selects, and the alert is not suppressed (quiet hour and T above
    0). So the alert of a row that is the only crossed one is sent unless it
    is suppressed; nothing is sent when there is no previous reading, when
    the previous reading is at or below T, or when the current reading is
    above T; and once a completed invocation has recorded a reading at or
    below T the next invocation does not send the alert of T. *)
Theorem C2_alert_iff_crossed_selected_unsuppressed :
  (forall prev curr T,
      crossed prev curr T = true <->
      exists p, prev = Some p /\ (inject_Z T < p)%Q /\ curr <= T)
  /\ (forall data hour file T,
        cold_fired T (fst (run data hour file)) = true <->
        exists rs rt t f row,
          rain_loop (lookahead data) = Ok (rs, rt)
          /\ current_fields data = Some (t, f)
          /\ downward_crossing (last_feels_like (load_state file))
               (py_round f) T
          /\ alert_to_send (last_feels_like (load_state file)) (py_round f)
             = Some row
          /\ th_value row = T
          /\ ~ ((hour >= 23 \/ hour < 6) /\ T > 0))
  /\ (forall data hour file rs rt t f row,
        rain_loop (lookahead data) = Ok (rs, rt) ->
        current_fields data = Some (t, f) ->
        In row COLD_THRESHOLDS ->
        downward_crossing (last_feels_like (load_state file)) (py_round f)
          (th_value row) ->
        (forall row', In row' COLD_THRESHOLDS ->
                      downward_crossing (last_feels_like (load_state file))
                        (py_round f) (th_value row') ->
                      row' = row) ->
        ~ ((hour >= 23 \/ hour < 6) /\ th_value row > 0) ->
        cold_fired (th_value row) (fst (run data hour file)) = true)
  /\ (forall data hour file T,
        last_feels_like (load_state file) = None ->
        cold_fired T (fst (run data hour file)) = false)
  /\ (forall data hour file t f p T,
        current_fields data = Some (t, f) ->
        last_feels_like (load_state file) = Some p ->
        (p <= inject_Z T)%Q \/ T < py_round f ->
        cold_fired T (fst (run data hour file)) = false)
  /\ (forall data1 hour1 file t1 f1 T data2 hour2,
        snd (run data1 hour1 file) = Ok tt ->
        current_fields data1 = Some (t1, f1) ->
        py_round f1 <= T ->
        cold_fired T
          (fst (run data2 hour2
                  (disk_after file (fst (run data1 hour1 file))))) = false).
Proof.
  assert (Hq : forall hour T,
             ((hour >= 23 \/ hour < 6) /\ T > 0) <-> (quiet hour /\ 0 < T)).
  { intros. unfold quiet. lia. }
  split; [exact crossed_iff|].
  split; [|split; [|split; [|split]]].
  - intros data hour file T. rewrite (cold_fired_iff data hour file T).
    split; intros (rs & rt & t & f & row & H1 & H2 & H3 & H4 & H5 & H6);
      exists rs, rt, t, f, row; repeat (split; [assumption|]);
      intro H; apply H6; now apply Hq.
  - intros data hour file rs rt t f row Hr Hc Hin Hd Hsole Hns.
    apply cold_fired_iff. exists rs, rt, t, f, row.
    split; [exact Hr|]. split; [exact Hc|]. split; [exact Hd|].
    split; [|split; [reflexivity | intro H; apply Hns; now apply Hq]].
    apply crossed_downward in Hd.
    destruct (alert_to_send_exists _ _ _ Hin Hd) as [row0 H0].
    rewrite H0. f_equal. apply Hsole.
    + now apply alert_to_send_Some in H0.
    + apply crossed_downward. now apply alert_to_send_Some in H0.
  - intros data hour file T Hnone.
    destruct (cold_fired T (fst (run data hour file))) eqn:E; [|reflexivity].
    destruct (fired_is_crossed _ _ _ _ E) as (t & f & _ & p & Hp & _).
    congruence.
  - intros data hour file t f p T Hc Hp Hor.
    destruct (cold_fired T (fst (run data hour file))) eqn:E; [|reflexivity].
    destruct (fired_is_crossed _ _ _ _ E) as (t' & f' & Hc' & q & Hq' & Hlt & Hle).
    rewrite Hc in Hc'. injection Hc' as <- <-.
    rewrite Hp in Hq'. injection Hq' as <-.
    destruct Hor as [Hor|Hor]; [|lia].
    exfalso. exact (Qlt_not_le _ _ Hlt Hor).
  - intros data1 hour1 file t1 f1 T data2 hour2 Hok Hc Hle.
    destruct (run_ok_disk _ _ _ _ _ Hok Hc) as (st' & -> & Hlast).
    destruct (cold_fired T _) eqn:E; [|reflexivity].
    destruct (fired_is_crossed _ _ _ _ E) as (t & f & _ & p & Hp & Hlt & _).
    cbn [load_state] in Hp. rewrite Hlast in Hp. injection Hp as <-.
    rewrite <- Zlt_Qlt in Hlt. lia.
Qed.

Lemma C2_alert_iff_crossed_selected_unsuppressed_witness :
  cold_fired 5
    (fst (run (reading (4 # 1) (4 # 1) (Some [])) 14
            (Some (state_with (6 # 1))))) = true
  /\ cold_fired 5
       (fst (run (reading (4 # 1) (4 # 1) (Some [])) 14 None)) = false
  /\ cold_fired 5
       (fst (run (reading (7 # 1) (7 # 1) (Some [])) 14
               (Some (state_with (9 # 1))))) = false
  /\ cold_fired 5
       (fst (run (reading (3 # 1) (3 # 1) (Some [])) 15
               (disk_after (Some (state_with (6 # 1)))
                  (fst (run (reading (4 # 1) (4 # 1) (Some [])) 14
                          (Some (state_with (6 # 1)))))))) = false.
Proof.
  destruct C2_alert_iff_crossed_selected_unsuppressed
    as (_ & _ & H3 & H4 & H5 & H6).
  split; [|split; [|split]].
  - apply (H3 (reading (4 # 1) (4 # 1) (Some [])) 14
              (Some (state_with (6 # 1))) false None (4 # 1) (4 # 1)%Q
              (5, "🧊 Very Cold Alert", "Cold conditions expected. Bundle up."));
      [reflexivity | reflexivity | cbn; auto | | | cbn; lia].
    + exists (6 # 1)%Q. split; [reflexivity|]. split; [reflexivity|cbn; lia].
    + intros row' [<-|[<-|[<-|[<-|[]]]]] (q & Hq & Hlt & Hle);
        injection Hq as <-; try reflexivity; exfalso;
        vm_compute in Hlt; vm_compute in Hle; congruence.
  - apply H4. reflexivity.
  - apply (H5 _ _ _ (7 # 1) (7 # 1) (9 # 1)%Q);
      [reflexivity | reflexivity | right; vm_compute; reflexivity].
  - apply (H6 _ _ _ (4 # 1) (4 # 1)%Q); [reflexivity | reflexivity |].
    vm_compute. discriminate.
Defined.

(** C2, as first stated, fails: with a previous reading of 16 and a current
    reading of -3 the threshold 10 satisfies the crossing condition and its
    alert is not sent (the run sends one alert only); with 6 and 4 in quiet
    hours the threshold 5 satisfies it and nothing is sent. *)
Lemma C2_crossed_threshold_without_alert :
  (downward_crossing (Some (16 # 1)) (-3) 10
   /\ cold_fired 10
        (fst (run (reading (-3 # 1) (-3 # 1) (Some [])) 12
                (Some (state_with (16 # 1))))) = false)
  /\ (downward_crossing (Some (6 # 1)) 4 5
      /\ cold_fired 5
           (fst (run (reading (4 # 1) (4 # 1) (Some [])) 2
                   (Some (state_with (6 # 1))))) = false).
Proof.
  split; (split; [|reflexivity]).
  - exists (16 # 1)%Q. split; [reflexivity|]. split; [reflexivity|lia].
  - exists (6 # 1)%Q. split; [reflexivity|]. split; [reflexivity|lia].
Qed.

(** ** C3 and C4: quiet hours and priority *)

Lemma cold_section_events data hour st t f T title advice :
  current_fields data = Some (t, f) ->
  alert_to_send (last_feels_like st) (py_round f) = Some (T, title, advice) ->
  fst (cold_section data hour st) =
  if is_quiet_hours hour && (0 <? T) then []
  else [Push title (ColdMessage (py_round t) (py_round f) advice)
          (if T <=? 0 then 2 else 1)].
Proof.
  intros Hc Ha. rewrite (cold_section_ok _ _ _ _ _ Hc). cbn [fst].
  rewrite notify_cold_events, Ha. reflexivity.
Qed.

Lemma suppress_iff hour T :
  is_quiet_hours hour && (0 <? T) = true <-> quiet hour /\ 0 < T.
Proof.
  rewrite andb_true_iff, is_quiet_hours_iff, Z.ltb_lt. reflexivity.
Qed.

(** C3. For the selected alert, with threshold T, and the local hour: the
    cold section sends nothing exactly when the hour is in quiet hours
    (23 or later, or before 6) and T is above 0; an alert with T at or below
    0 is sent at every hour, and outside quiet hours the selected alert is
    sent whatever T is. *)
Theorem C3_quiet_hours_suppression data hour st t f T title advice :
  current_fields data = Some (t, f) ->
  alert_to_send (last_feels_like st) (py_round f) = Some (T, title, advice) ->
  let evs := fst (cold_section data hour st) in
  let sent p := [Push title (ColdMessage (py_round t) (py_round f) advice) p] in
  (evs = [] <-> (hour >= 23 \/ hour < 6) /\ T > 0)
  /\ (T <= 0 -> exists p, evs = sent p)
  /\ (~ (hour >= 23 \/ hour < 6) -> exists p, evs = sent p).
Proof.
  intros Hc Ha evs sent. subst evs sent. cbn beta.
  rewrite (cold_section_events _ _ _ _ _ _ _ _ Hc Ha).
  destruct (is_quiet_hours hour && (0 <? T)) eqn:E.
  - apply suppress_iff in E. unfold quiet in E. split; [|split].
    + split; [intros _; lia | reflexivity].
    + intro H. lia.
    + intro H. exfalso. apply H. lia.
  - assert (N : ~ (quiet hour /\ 0 < T)).
    { intro H. apply suppress_iff in H. congruence. }
    unfold quiet in N. split; [|split].
    + split; [discriminate | intro H; exfalso; apply N; lia].
    + intros _. eexists. reflexivity.
    + intros _. eexists. reflexivity.
Qed.

Lemma C3_quiet_hours_suppression_witness :
  fst (cold_section (reading (4 # 1) (4 # 1) (Some [])) 2
         (state_with (6 # 1))) = []
  /\ exists p,
       fst (cold_section (reading (-1 # 1) (-1 # 1) (Some [])) 2
              (state_with (3 # 1)))
       = [Push "🥶 Freezing Alert"
            (ColdMessage (-1) (-1) "Risk of frost or icy surfaces.") p].
Proof.
  split.
  - destruct (C3_quiet_hours_suppression
                (reading (4 # 1) (4 # 1) (Some [])) 2 (state_with (6 # 1))
                (4 # 1) (4 # 1) 5 "🧊 Very Cold Alert"
                "Cold conditions expected. Bundle up." eq_refl eq_refl)
      as (H & _).
    apply H. split; [right|]; lia.
  - destruct (C3_quiet_hours_suppression
                (reading (-1 # 1) (-1 # 1) (Some [])) 2 (state_with (3 # 1))
                (-1 # 1) (-1 # 1) 0 "🥶 Freezing Alert"
                "Risk of frost or icy surfaces." eq_refl eq_refl)
      as (_ & H & _).
    apply H. lia.
Defined.

(** C4, as amended. Every cold notification that is sent carries priority 2
    (the channel's emergency class) when the selected threshold is at or
    below 0, and priority 1 (high) when it is above 0. *)
Theorem C4_cold_priority data hour st t f T title advice title' m p :
  current_fields data = Some (t, f) ->
  alert_to_send (last_feels_like st) (py_round f) = Some (T, title, advice) ->
  In (Push title' m p) (fst (cold_section data hour st)) ->
  (T <= 0 -> p = 2) /\ (T > 0 -> p = 1).
Proof.
  intros Hc Ha. rewrite (cold_section_events _ _ _ _ _ _ _ _ Hc Ha).
  destruct (is_quiet_hours hour && (0 <? T)); [intros []|].
  intros [E|[]]. injection E as _ _ <-.
  destruct (Z.leb_spec T 0); split; intro; lia.
Qed.

Lemma C4_cold_priority_witness :
  fst (cold_section (reading (4 # 1) (4 # 1) (Some [])) 14
         (state_with (6 # 1)))
  = [Push "🧊 Very Cold Alert"
       (ColdMessage 4 4 "Cold conditions expected. Bundle up.") 1]
  /\ ((5 <= 0 -> 1 = 2) /\ (5 > 0 -> 1 = 1)).
Proof.
  split; [reflexivity|].
  apply (C4_cold_priority
           (reading (4 # 1) (4 # 1) (Some [])) 14 (state_with (6 # 1))
           (4 # 1) (4 # 1) 5 "🧊 Very Cold Alert"
           "Cold conditions expected. Bundle up."
           "🧊 Very Cold Alert"
           (ColdMessage 4 4 "Cold conditions expected. Bundle up.") 1
           eq_refl eq_refl).
  left. reflexivity.
Defined.

(** C4, as first stated, fails: with a previous reading of 6 and a current
    reading of 4 at 14h the 5-degree alert goes out at priority 1, not the
    normal priority 0; with 3 and -1 the freezing alert goes out at
    priority 2, not the high priority 1. *)
Lemma C4_priority_is_not_normal_high :
  (alert_to_send (Some (6 # 1)) 4
     = Some (5, "🧊 Very Cold Alert", "Cold conditions expected. Bundle up.")
   /\ fst (run (reading (4 # 1) (4 # 1) (Some [])) 14
             (Some (state_with (6 # 1))))
      = [Push "🧊 Very Cold Alert"
           (ColdMessage 4 4 "Cold conditions expected. Bundle up.") 1;
         Save (mkState false (Some (inject_Z 4)))]
   /\ 1 <> claimed_priority 5)
  /\ (alert_to_send (Some (3 # 1)) (-1)
        = Some (0, "🥶 Freezing Alert", "Risk of frost or icy surfaces.")
      /\ fst (run (reading (-1 # 1) (-1 # 1) (Some [])) 14
                (Some (state_with (3 # 1))))
         = [Push "🥶 Freezing Alert"
              (ColdMessage (-1) (-1) "Risk of frost or icy surfaces.") 2;
            Save (mkState false (Some (inject_Z (-1))))]
      /\ 2 <> claimed_priority 0).
Proof.
  repeat split; try reflexivity; vm_compute; discriminate.
Qed.

(** ** C5, C6, C10: aborted and completed invocations *)

Lemma run_missing_trace data hour file :
  current_fields data = None ->
  (exists e, snd (run data hour file) = Raise e)
  /\ saves (fst (run data hour file)) = 0%nat
  /\ cold_pushes (fst (run data hour file)) = 0%nat.
Proof.
  intro Hc.
  destruct (run_cases data hour file) as [e _ ->|rs rt key _ _ ->|rs rt t f _ Hc' _];
    cbn [snd fst].
  - split; [eauto|]. split; reflexivity.
  - destruct (rain_events_trace rs rt (load_state file)) as (-> & -> & _).
    split; [eauto|]. split; reflexivity.
  - congruence.
Qed.

Lemma run_raise_trace data hour file e :
  snd (run data hour file) = Raise e ->
  saves (fst (run data hour file)) = 0%nat.
Proof.
  destruct (run_cases data hour file) as [e' _ ->|rs rt key _ _ ->|rs rt t f _ _ ->];
    cbn [snd fst]; intro H.
  - reflexivity.
  - now destruct (rain_events_trace rs rt (load_state file)) as (-> & _).
  - discriminate.
Qed.

(** C5, as amended. When the current conditions lack the temperature or the
    feels-like reading, the invocation aborts with an exception and no
    default is substituted: no cold notification is sent, the state is not
    saved and the state file is left as it was. The rain section has
    already run by then, so its notification, if any, has been sent. *)
Theorem C5_missing_reading_aborts data hour file :
  current_fields data = None ->
  (exists e, snd (run data hour file) = Raise e)
  /\ cold_pushes (fst (run data hour file)) = 0%nat
  /\ saves (fst (run data hour file)) = 0%nat
  /\ disk_after file (fst (run data hour file)) = file
  /\ (forall rs rt,
        rain_loop (lookahead data) = Ok (rs, rt) ->
        exists key,
          run data hour file =
          (rain_events rs rt (load_state file), Raise (KeyError key))).
Proof.
  intro Hc. destruct (run_missing_trace data hour file Hc) as (He & Hs & Hp).
  split; [exact He|]. split; [exact Hp|]. split; [exact Hs|].
  split; [now apply disk_after_no_save|].
  intros rs rt Hr. exact (run_missing data hour file rs rt Hr Hc).
Qed.

Lemma C5_missing_reading_aborts_witness :
  snd (run rainy_no_temp 12 None) = Raise (KeyError "temp")
  /\ disk_after None (fst (run rainy_no_temp 12 None)) = None.
Proof.
  split; [reflexivity|].
  apply (C5_missing_reading_aborts rainy_no_temp 12 None). reflexivity.
Defined.

(** C5, as first stated, fails: a response with rain in the next hour and
    no current temperature makes the run send the rain notification before
    it aborts. *)
Lemma C5_rain_sent_before_abort :
  current_fields rainy_no_temp = None
  /\ run rainy_no_temp 12 None
     = ([Push RAIN_TITLE (RainMessage (Some 1700000000)) 1],
        Raise (KeyError "temp"))
  /\ rain_pushes (fst (run rainy_no_temp 12 None)) = 1%nat.
Proof. repeat split; reflexivity. Qed.

(** C6. In every invocation that completes, the state is saved exactly
    once, as the last effect, with [last_feels_like] set to the current
    (rounded) feels-like reading, whether or not a threshold was crossed and
    whether or not the selected alert was suppressed; the state file holds
    that state afterwards, so a threshold the recorded reading is at or
    below cannot be crossed at the next invocation. *)
Theorem C6_last_feels_like_updated data hour file :
  snd (run data hour file) = Ok tt ->
  exists t f pre st',
    current_fields data = Some (t, f)
    /\ fst (run data hour file) = pre ++ [Save st']
    /\ saves pre = 0%nat
    /\ saves (fst (run data hour file)) = 1%nat
    /\ last_feels_like st' = Some (inject_Z (py_round f))
    /\ disk_after file (fst (run data hour file)) = Some st'
    /\ (forall T curr', py_round f <= T ->
          crossed (last_feels_like st') curr' T = false).
Proof.
  intro Hok.
  destruct (run_ok_inv _ _ _ Hok) as (rs & rt & t & f & _ & Hc & ->).
  eexists t, f, _, _.
  split; [exact Hc|]. split; [reflexivity|].
  pose proof (run_prefix_no_save hour rs rt (load_state file) (py_round t)
                (py_round f) (last_feels_like (load_state file))) as Hpre.
  split; [exact Hpre|].
  split; [rewrite saves_app, Hpre; reflexivity|].
  split; [reflexivity|].
  split; [rewrite disk_after_app; reflexivity|].
  intros T curr' Hle. cbn [last_feels_like set_last_feels_like].
  now apply crossed_below.
Qed.

Lemma C6_last_feels_like_updated_witness :
  exists t f pre st',
    current_fields (reading (4 # 1) (4 # 1) (Some [])) = Some (t, f)
    /\ fst (run (reading (4 # 1) (4 # 1) (Some [])) 2
              (Some (state_with (6 # 1)))) = pre ++ [Save st']
    /\ saves pre = 0%nat
    /\ saves (fst (run (reading (4 # 1) (4 # 1) (Some [])) 2
                     (Some (state_with (6 # 1))))) = 1%nat
    /\ last_feels_like st' = Some (inject_Z (py_round f))
    /\ disk_after (Some (state_with (6 # 1)))
         (fst (run (reading (4 # 1) (4 # 1) (Some [])) 2
                 (Some (state_with (6 # 1))))) = Some st'
    /\ (forall T curr', py_round f <= T ->
          crossed (last_feels_like st') curr' T = false).
Proof.
  apply (C6_last_feels_like_updated (reading (4 # 1) (4 # 1) (Some [])) 2
           (Some (state_with (6 # 1)))).
  reflexivity.
Defined.

Lemma run_ok_shape data hour file :
  snd (run data hour file) = Ok tt ->
  exists pre st',
    fst (run data hour file) = pre ++ [Save st'] /\ saves pre = 0%nat.
Proof.
  intro Hok.
  destruct (run_ok_inv _ _ _ Hok) as (rs & rt & t & f & _ & _ & ->).
  eexists _, _. split; [reflexivity|]. apply run_prefix_no_save.
Qed.

(** C10. The state is saved only by an invocation that completes, once and
    as its last effect; an invocation that aborts saves nothing and leaves
    the state file as it was loaded. In particular, when rain is detected,
    the loaded state has [rain_alerted] false and the current conditions
    lack a reading, the run sends the rain notification, aborts, and the
    file is unchanged, so the same invocation repeated against that file
    sends the rain notification again. *)
Theorem C10_state_saved_only_on_success :
  (forall data hour file,
      snd (run data hour file) = Ok tt ->
      exists pre st',
        fst (run data hour file) = pre ++ [Save st'] /\ saves pre = 0%nat)
  /\ (forall data hour file e,
        snd (run data hour file) = Raise e ->
        saves (fst (run data hour file)) = 0%nat
        /\ disk_after file (fst (run data hour file)) = file)
  /\ (forall data hour file rt,
        rain_loop (lookahead data) = Ok (true, rt) ->
        rain_alerted (load_state file) = false ->
        current_fields data = None ->
        fst (run data hour file) = [Push RAIN_TITLE (RainMessage rt) 1]
        /\ (exists key, snd (run data hour file) = Raise (KeyError key))
        /\ disk_after file (fst (run data hour file)) = file
        /\ fst (run data hour (disk_after file (fst (run data hour file))))
           = [Push RAIN_TITLE (RainMessage rt) 1]).
Proof.
  split; [|split].
  - intros data hour file Hok.
    exact (run_ok_shape data hour file Hok).
  - intros data hour file e He.
    pose proof (run_raise_trace _ _ _ _ He) as Hs.
    split; [exact Hs | now apply disk_after_no_save].
  - intros data hour file rt Hr Ha Hc.
    destruct (run_missing data hour file true rt Hr Hc) as [key Hk].
    assert (Hev : rain_events true rt (load_state file)
                  = [Push RAIN_TITLE (RainMessage rt) 1]).
    { unfold rain_events. rewrite Ha. reflexivity. }
    rewrite Hk. cbn [fst snd]. rewrite Hev. cbn [disk_after].
    split; [reflexivity|]. split; [eauto|]. split; [reflexivity|].
    rewrite Hk. exact Hev.
Qed.

Lemma C10_state_saved_only_on_success_witness :
  fst (run rainy_no_temp 12 None)
  = [Push RAIN_TITLE (RainMessage (Some 1700000000)) 1]
  /\ (exists key, snd (run rainy_no_temp 12 None) = Raise (KeyError key))
  /\ disk_after None (fst (run rainy_no_temp 12 None)) = None
  /\ fst (run rainy_no_temp 12
            (disk_after None (fst (run rainy_no_temp 12 None))))
     = [Push RAIN_TITLE (RainMessage (Some 1700000000)) 1].
Proof.
  destruct C10_state_saved_only_on_success as (_ & _ & H).
  apply (H rainy_no_temp 12 None (Some 1700000000)); reflexivity.
Defined.

(** ** C7: the rain detector *)

Lemma rain_state_alerted rs st : rain_alerted (rain_state rs st) = rs.
Proof.
  unfold rain_state. destruct rs; [|reflexivity].
  destruct (rain_alerted st) eqn:E; [exact E | reflexivity].
Qed.

(** Rain notifications and the saved flag of a completed run. *)
Lemma run_complete_rain data hour file rs rt t f :
  rain_loop (lookahead data) = Ok (rs, rt) ->
  current_fields data = Some (t, f) ->
  rain_pushes (fst (run data hour file))
  = (if rs && negb (rain_alerted (load_state file)) then 1 else 0)%nat
  /\ exists st',
       disk_after file (fst (run data hour file)) = Some st'
       /\ rain_alerted st' = rs.
Proof.
  intros Hr Hc. rewrite (run_complete _ hour file _ _ _ _ Hr Hc). cbn [fst].
  split.
  - rewrite !rain_pushes_app.
    destruct (rain_events_trace rs rt (load_state file)) as (_ & _ & _ & ->).
    destruct (notify_cold_trace hour (py_round t) (py_round f)
                (alert_to_send (last_feels_like (load_state file)) (py_round f)))
      as (_ & -> & _).
    { intros th Hth. now apply alert_to_send_Some in Hth. }
    cbn. lia.
  - eexists. rewrite !disk_after_app. cbn [disk_after].
    split; [reflexivity|]. cbn [rain_alerted set_last_feels_like].
    apply rain_state_alerted.
Qed.

(** Over consecutive completed invocations that all detect rain, only the
    first can notify, and only if the flag was clear. *)
Lemma rain_episode inputs :
  Forall (fun i => rain_detected (fst i) /\ current_fields (fst i) <> None)
         inputs ->
  forall file,
    rain_pushes (fst (invoke_all inputs file))
    = match inputs with
      | [] => 0%nat
      | _ :: _ => if rain_alerted (load_state file) then 0%nat else 1%nat
      end.
Proof.
  induction 1 as [|[data hour] rest [[rt Hr] Hc] Hrest IH]; intro file;
    [reflexivity|].
  cbn [fst] in Hr, Hc.
  destruct (current_fields data) as [[t f]|] eqn:Hf; [clear Hc|congruence].
  destruct (run_complete_rain data hour file true rt t f Hr Hf)
    as (Hp & st' & Hd & Ha).
  cbn [invoke_all]. unfold invoke.
  destruct (run data hour file) as [evs r]. cbn [fst] in Hp, Hd.
  rewrite Hd. specialize (IH (Some st')).
  destruct (invoke_all rest (Some st')) as [evs' file''].
  cbn [fst] in *. rewrite rain_pushes_app, Hp, IH.
  cbn [load_state]. rewrite Ha.
  destruct (rain_alerted (load_state file)), rest; reflexivity.
Qed.

(** C7, as amended. With the outcome of the two-point lookahead at hand: if
    rain is detected and [rain_alerted] is false, the rain section sends
    exactly one notification and sets the flag; if rain is detected and the
    flag is already set, it sends nothing and the flag stays set; if no rain
    is detected, it sends nothing and clears the flag. A completed run saves
    that flag, so over consecutive completed invocations that all detect
    rain at most one rain notification is sent. *)
Theorem C7_rain_rising_edge :
  (forall data st rs rt,
      rain_loop (lookahead data) = Ok (rs, rt) ->
      (rs = true -> rain_alerted st = false ->
       rain_section data st =
       ([Push RAIN_TITLE (RainMessage rt) 1], Ok (set_rain_alerted true st)))
      /\ (rs = true -> rain_alerted st = true ->
          rain_section data st = ([], Ok st))
      /\ (rs = false ->
          rain_section data st = ([], Ok (set_rain_alerted false st))))
  /\ (forall data hour file rs rt,
        rain_loop (lookahead data) = Ok (rs, rt) ->
        snd (run data hour file) = Ok tt ->
        rain_pushes (fst (run data hour file))
        = (if rs && negb (rain_alerted (load_state file)) then 1 else 0)%nat
        /\ exists st',
             disk_after file (fst (run data hour file)) = Some st'
             /\ rain_alerted st' = rs)
  /\ (forall inputs file,
        Forall (fun i => rain_detected (fst i)
                         /\ current_fields (fst i) <> None) inputs ->
        (rain_pushes (fst (invoke_all inputs file)) <= 1)%nat).
Proof.
  split; [|split].
  - intros data st rs rt Hr. rewrite (rain_section_ok _ _ _ _ Hr).
    unfold rain_events, rain_state.
    split; [|split]; intros; subst; try rewrite H0; reflexivity.
  - intros data hour file rs rt Hr Hok.
    destruct (run_ok_inv _ _ _ Hok) as (rs' & rt' & t & f & _ & Hc & _).
    exact (run_complete_rain data hour file rs rt t f Hr Hc).
  - intros inputs file Hall. rewrite (rain_episode inputs Hall file).
    destruct inputs; [lia|]. destruct (rain_alerted (load_state file)); lia.
Qed.

Lemma C7_rain_rising_edge_witness :
  rain_section (reading (4 # 1) (4 # 1) (Some [rainy_hour]))
    (mkState false None)
  = ([Push RAIN_TITLE (RainMessage (Some 1700000000)) 1],
     Ok (mkState true None))
  /\ (rain_pushes
        (fst (invoke_all
                [(reading (4 # 1) (4 # 1) (Some [rainy_hour]), 9%Z);
                 (reading (4 # 1) (4 # 1) (Some [rainy_hour]), 10%Z)]
                None)) <= 1)%nat.
Proof.
  destruct C7_rain_rising_edge as (H1 & _ & H3). split.
  - apply (H1 (reading (4 # 1) (4 # 1) (Some [rainy_hour]))
              (mkState false None) true (Some 1700000000) eq_refl);
      reflexivity.
  - apply H3. repeat constructor; cbn; try discriminate;
      exists (Some 1700000000); reflexivity.
Defined.

(** C7, as first stated, fails in its last clause: two consecutive
    invocations that both detect rain and both abort on a missing current
    temperature send one rain notification each, since the flag set by the
    first is never saved. *)
Lemma C7_two_notifications_in_one_episode :
  rain_detected rainy_no_temp
  /\ invoke_all [(rainy_no_temp, 9); (rainy_no_temp, 10)] None
     = ([Push RAIN_TITLE (RainMessage (Some 1700000000)) 1;
         Push RAIN_TITLE (RainMessage (Some 1700000000)) 1], None)
  /\ rain_pushes
       (fst (invoke_all [(rainy_no_temp, 9); (rainy_no_temp, 10)] None))
     = 2%nat.
Proof.
  split; [exists (Some 1700000000); reflexivity|]. split; reflexivity.
Qed.

(** ** C8: a response without the hourly field *)

(** C8, as amended. The fetch of the daily summary, [ow_onecall], raises
    when the response has no hourly field. The alert script does not: it
    reads a missing hourly field as an empty forecast, detects no rain, and
    completes whenever the current conditions are complete. *)
Theorem C8_missing_hourly :
  (forall status_code data,
      hourly data = None -> exists e, ow_onecall status_code data = Raise e)
  /\ (forall data hour file,
        hourly data = None ->
        rain_loop (lookahead data) = Ok (false, None)
        /\ run data hour file = run (mkData (current data) (Some [])) hour file)
  /\ (forall data hour file t f,
        hourly data = None ->
        current_fields data = Some (t, f) ->
        snd (run data hour file) = Ok tt).
Proof.
  split; [|split].
  - intros status_code data H. unfold ow_onecall. rewrite H.
    destruct (negb (status_code =? 200)); eauto.
  - intros [cur hs] hour file H. cbn in H. subst hs. split; reflexivity.
  - intros data hour file t f H Hc.
    assert (Hr : rain_loop (lookahead data) = Ok (false, None)).
    { unfold lookahead. rewrite H. reflexivity. }
    now rewrite (run_complete _ hour file _ _ _ _ Hr Hc).
Qed.

Lemma C8_missing_hourly_witness :
  (exists e, ow_onecall 200 (reading (4 # 1) (4 # 1) None) = Raise e)
  /\ snd (run (reading (4 # 1) (4 # 1) None) 12 None) = Ok tt.
Proof.
  destruct C8_missing_hourly as (H1 & _ & H3). split.
  - apply H1. reflexivity.
  - apply (H3 _ _ _ (4 # 1) (4 # 1)%Q); reflexivity.
Defined.

(** C8, as first stated, fails for the alert script: a response without
    the hourly field and with complete current conditions is processed to
    the end, state saved. *)
Lemma C8_alert_script_runs_without_hourly :
  hourly (reading (4 # 1) (4 # 1) None) = None
  /\ run (reading (4 # 1) (4 # 1) None) 12 None
     = ([Save (mkState false (Some (inject_Z 4)))], Ok tt).
Proof. split; reflexivity. Qed.

(** ** C9: decisions on rounded readings *)

Lemma crossed_same (z T : Z) : crossed (Some (inject_Z z)) z T = false.
Proof.
  unfold crossed. rewrite Qgtb_inject_Z.
  destruct (Z.ltb_spec T z), (Z.leb_spec z T); try reflexivity. lia.
Qed.

Lemma alert_to_send_same (z : Z) : alert_to_send (Some (inject_Z z)) z = None.
Proof.
  unfold alert_to_send. rewrite sorted_thresholds.
  cbn [find COLD_THRESHOLDS th_value fst]. now rewrite !crossed_same.
Qed.

(** A run on complete current conditions reads them only through
    [py_round]. *)
Lemma run_reading t f hs hour file :
  run (reading t f hs) hour file =
  (st <- rain_section (reading t f hs) (load_state file) ;;
   notify_cold hour (py_round t) (py_round f)
     (alert_to_send (last_feels_like st) (py_round f)) ;;;
   save_state (set_last_feels_like (Some (inject_Z (py_round f))) st)).
Proof.
  unfold run. destruct (rain_section _ _) as [evs [st|e]]; [|reflexivity].
  cbn [bind]. rewrite (cold_section_ok (reading t f hs) hour st t f eq_refl).
  pose proof (notify_cold_ok hour (py_round t) (py_round f)
                (alert_to_send (last_feels_like st) (py_round f))) as Hok.
  destruct (notify_cold _ _ _ _) as [evs' r]. cbn [snd] in Hok. subst r.
  reflexivity.
Qed.

(** C9. Readings are rounded to the nearest whole degree before any
    decision: a run depends on the current temperature and feels-like
    reading only through their rounded values, and the value saved as
    [last_feels_like] is the rounded feels-like reading. A feels-like of 0.4
    counts as 0 and so as at or below the freezing threshold, and when the
    reading of a completed invocation and the next reading round to the same
    integer, the next invocation sends no cold notification. *)
Theorem C9_decisions_on_rounded_readings :
  (forall x : Q,
      (inject_Z (py_round x) - (1 # 2) <= x
       /\ x <= inject_Z (py_round x) + (1 # 2))%Q)
  /\ (forall t1 f1 t2 f2 hs hour file,
        py_round t1 = py_round t2 ->
        py_round f1 = py_round f2 ->
        run (reading t1 f1 hs) hour file = run (reading t2 f2 hs) hour file)
  /\ (forall data hour file t f,
        snd (run data hour file) = Ok tt ->
        current_fields data = Some (t, f) ->
        exists st',
          disk_after file (fst (run data hour file)) = Some st'
          /\ last_feels_like st' = Some (inject_Z (py_round f)))
  /\ (py_round (4 # 10) = 0
      /\ crossed (Some (3 # 1)) (py_round (4 # 10)) 0 = true)
  /\ (forall data1 hour1 file t1 f1 t2 f2 hs hour2,
        snd (run data1 hour1 file) = Ok tt ->
        current_fields data1 = Some (t1, f1) ->
        py_round f1 = py_round f2 ->
        cold_pushes
          (fst (run (reading t2 f2 hs) hour2
                  (disk_after file (fst (run data1 hour1 file))))) = 0%nat).
Proof.
  split; [exact py_round_nearest|].
  split; [|split; [exact run_ok_disk|split; [split; reflexivity|]]].
  - intros t1 f1 t2 f2 hs hour file Ht Hf.
    rewrite !run_reading, Ht, Hf. reflexivity.
  - intros data1 hour1 file t1 f1 t2 f2 hs hour2 Hok Hc Hf.
    destruct (run_ok_disk _ _ _ _ _ Hok Hc) as (st' & -> & Hlast).
    destruct (rain_loop (lookahead (reading t2 f2 hs))) as [[rs rt]|e] eqn:Hr.
    + rewrite (run_complete _ hour2 (Some st') _ _ t2 f2 Hr eq_refl).
      cbn [fst load_state]. rewrite Hlast, Hf, alert_to_send_same.
      rewrite !cold_pushes_app.
      now destruct (rain_events_trace rs rt st') as (_ & -> & _).
    + now rewrite (run_rain_raise _ hour2 (Some st') _ Hr).
Qed.

Lemma C9_decisions_on_rounded_readings_witness :
  run (reading (41 # 10) (4 # 10) (Some [])) 12 (Some (state_with (3 # 1)))
  = run (reading (4 # 1) (0 # 1) (Some [])) 12 (Some (state_with (3 # 1)))
  /\ cold_pushes
       (fst (run (reading (4 # 1) (-2 # 10) (Some [])) 13
               (disk_after (Some (state_with (3 # 1)))
                  (fst (run (reading (41 # 10) (4 # 10) (Some [])) 12
                          (Some (state_with (3 # 1)))))))) = 0%nat.
Proof.
  destruct C9_decisions_on_rounded_readings as (_ & H2 & _ & _ & H5). split.
  - apply H2; reflexivity.
  - apply (H5 _ _ _ (41 # 10) (4 # 10)%Q); reflexivity.
Defined.

(** ** Further properties of the alert script *)

(** *** The rain loop *)

Lemma rain_loop_true hs rt :
  rain_loop hs = Ok (true, rt) <->
  exists pre h post t,
    hs = pre ++ h :: post
    /\ Forall (fun x => is_rain x = Ok false) pre
    /\ is_rain h = Ok true
    /\ dt h = Some t
    /\ rt = Some t.
Proof.
  split.
  - induction hs as [|h hs IH]; cbn; [discriminate|].
    destruct (is_rain h) as [[|]|e] eqn:E; [| |discriminate].
    + destruct (dt h) as [t|] eqn:D; cbn; [|discriminate].
      intro H. injection H as <-. exists [], h, hs, t. auto.
    + intro H. destruct (IH H) as (pre & h' & post & t & -> & Hp & Hh & Hd & Hr).
      exists (h :: pre), h', post, t. auto.
  - intros (pre & h & post & t & -> & Hp & Hh & Hd & ->).
    induction Hp as [|x pre Hx Hp IH]; cbn.
    + now rewrite Hh, Hd.
    + now rewrite Hx.
Qed.

Lemma rain_loop_false hs rt :
  rain_loop hs = Ok (false, rt) <->
  Forall (fun x => is_rain x = Ok false) hs /\ rt = None.
Proof.
  split.
  - induction hs as [|h hs IH]; cbn.
    + intro H. injection H as <-. auto.
    + destruct (is_rain h) as [[|]|e] eqn:E; [| |discriminate].
      * destruct (dt h); cbn; discriminate.
      * intro H. destruct (IH H). auto.
  - intros [Hall ->]. induction Hall as [|x hs Hx Hall IH]; cbn;
      [reflexivity | now rewrite Hx].
Qed.

Lemma rain_loop_no_dt pre h post :
  Forall (fun x => is_rain x = Ok false) pre ->
  is_rain h = Ok true ->
  dt h = None ->
  rain_loop (pre ++ h :: post) = Raise (KeyError "dt").
Proof.
  intros Hp Hh Hd. induction Hp as [|x pre Hx Hp IH]; cbn.
  - now rewrite Hh, Hd.
  - now rewrite Hx.
Qed.

(** X1. Only the first two hourly points are read: two responses whose
    hourly lists agree on their first two points, with the same current
    conditions, give the same run. *)
Theorem lookahead_reads_two_points cur hs hs' hour file :
  firstn 2 hs = firstn 2 hs' ->
  run (mkData cur (Some hs)) hour file = run (mkData cur (Some hs')) hour file.
Proof.
  intro H. unfold run, rain_section, cold_section, lookahead.
  cbn [hourly current]. now rewrite H.
Qed.

Lemma lookahead_reads_two_points_witness :
  run (mkData None (Some [rainy_hour; rainy_hour; rainy_hour])) 7 None
  = run (mkData None (Some [rainy_hour; rainy_hour])) 7 None.
Proof.
  apply lookahead_reads_two_points. reflexivity.
Defined.

(** X2. The loop reports rain exactly when some point of the window tests
    as rain, every point before it tests as not rain, and that point has a
    timestamp, which becomes the rain time: the first matching point
    decides. It reports no rain, and no rain time, exactly when every point
    of the window tests as not rain. *)
Theorem rain_loop_first_match hs rt :
  (rain_loop hs = Ok (true, rt) <->
   exists pre h post t,
     hs = pre ++ h :: post
     /\ Forall (fun x => is_rain x = Ok false) pre
     /\ is_rain h = Ok true
     /\ dt h = Some t
     /\ rt = Some t)
  /\ (rain_loop hs = Ok (false, rt) <->
      Forall (fun x => is_rain x = Ok false) hs /\ rt = None).
Proof. split; [apply rain_loop_true | apply rain_loop_false]. Qed.

(** X3. When the first point of the window that tests as rain has no
    timestamp, the run stops with [KeyError "dt"] before anything is sent or
    saved, even if [rain_alerted] is already set and no notification would
    have gone out. *)
Theorem rain_without_timestamp_aborts data hour file pre h post :
  lookahead data = pre ++ h :: post ->
  Forall (fun x => is_rain x = Ok false) pre ->
  is_rain h = Ok true ->
  dt h = None ->
  run data hour file = ([], Raise (KeyError "dt"))
  /\ disk_after file (fst (run data hour file)) = file.
Proof.
  intros Hl Hp Hh Hd.
  assert (Hr : rain_loop (lookahead data) = Raise (KeyError "dt")).
  { rewrite Hl. now apply rain_loop_no_dt. }
  rewrite (run_rain_raise _ hour file _ Hr). split; reflexivity.
Qed.

Lemma rain_without_timestamp_aborts_witness :
  run (reading (4 # 1) (4 # 1)
         (Some [mkHourlyPoint None (Some (1 # 2)) None]))
      12 (Some (mkState true (Some (6 # 1))))
  = ([], Raise (KeyError "dt"))
  /\ disk_after (Some (mkState true (Some (6 # 1))))
       (fst (run (reading (4 # 1) (4 # 1)
                    (Some [mkHourlyPoint None (Some (1 # 2)) None]))
                 12 (Some (mkState true (Some (6 # 1))))))
     = Some (mkState true (Some (6 # 1))).
Proof.
  apply (rain_without_timestamp_aborts _ _ _ []
           (mkHourlyPoint None (Some (1 # 2)) None) []);
    [reflexivity | constructor | reflexivity | reflexivity].
Defined.

(** *** Repeating an invocation *)

(** X4. After an invocation has completed, running again on the same
    response, at any hour, sends no notification and saves the state
    already in the file. *)
Theorem rerun_is_silent data hour hour' file :
  snd (run data hour file) = Ok tt ->
  exists st',
    disk_after file (fst (run data hour file)) = Some st'
    /\ run data hour' (Some st') = ([Save st'], Ok tt).
Proof.
  intro Hok.
  destruct (run_ok_inv _ _ _ Hok) as (rs & rt & t & f & Hr & Hc & ->).
  eexists. rewrite disk_after_app. cbn [disk_after].
  split; [reflexivity|].
  rewrite (run_complete _ hour' _ _ _ _ _ Hr Hc). cbn [load_state].
  set (st0 := rain_state rs (load_state file)).
  assert (Ha : rain_alerted st0 = rs) by apply rain_state_alerted.
  unfold rain_events. cbn [rain_alerted set_last_feels_like last_feels_like].
  rewrite Ha, andb_negb_r, alert_to_send_same. cbn [notify_cold fst ret app].
  do 3 f_equal. unfold rain_state, set_last_feels_like, set_rain_alerted.
  cbn [rain_alerted last_feels_like]. rewrite Ha.
  destruct rs; [reflexivity|]. now rewrite <- Ha at 1.
Qed.

Lemma rerun_is_silent_witness :
  exists st',
    disk_after None
      (fst (run (reading (4 # 1) (4 # 1) (Some [rainy_hour])) 9 None))
    = Some st'
    /\ run (reading (4 # 1) (4 # 1) (Some [rainy_hour])) 10 (Some st')
       = ([Save st'], Ok tt).
Proof.
  apply rerun_is_silent. reflexivity.
Defined.

(** *** Which alert is selected *)

(** Rows of the table are told apart by their values. *)
Lemma threshold_by_value t t' :
  In t COLD_THRESHOLDS -> In t' COLD_THRESHOLDS ->
  th_value t = th_value t' -> t = t'.
Proof.
  intros [<-|[<-|[<-|[<-|[]]]]] [<-|[<-|[<-|[<-|[]]]]]; cbn;
    intro H; try reflexivity; discriminate.
Qed.

(** X5. With a previous reading p, the row selected is the one with the
    greatest threshold strictly below p, and it is selected only when the
    current reading is at or below that threshold. A drop that does not
    reach the first threshold below the previous reading selects nothing. *)
Theorem selected_is_first_threshold_below_previous (p : Q) (curr : Z) t :
  alert_to_send (Some p) curr = Some t <->
  In t COLD_THRESHOLDS
  /\ (inject_Z (th_value t) < p)%Q
  /\ curr <= th_value t
  /\ (forall t', In t' COLD_THRESHOLDS ->
                 (inject_Z (th_value t') < p)%Q ->
                 th_value t' <= th_value t).
Proof.
  split.
  - intro H. destruct (alert_to_send_Some _ _ _ H) as [Hin Hc].
    apply crossed_iff in Hc. destruct Hc as (q & Hq & Hlt & Hle).
    injection Hq as <-.
    split; [exact Hin|]. split; [exact Hlt|]. split; [exact Hle|].
    intros t' Hin' Hlt'.
    destruct (Z_le_gt_dec (th_value t') (th_value t)) as [|Hgt]; [assumption|].
    apply (alert_to_send_highest _ _ _ H t' Hin').
    apply crossed_iff. exists p. split; [reflexivity|]. split; [exact Hlt'|lia].
  - intros (Hin & Hlt & Hle & Hmax).
    assert (Hc : crossed (Some p) curr (th_value t) = true).
    { apply crossed_iff. exists p. auto. }
    destruct (alert_to_send_exists _ _ _ Hin Hc) as [t0 H0].
    rewrite H0. f_equal.
    destruct (alert_to_send_Some _ _ _ H0) as [Hin0 Hc0].
    apply threshold_by_value; [assumption..|].
    apply Z.le_antisymm.
    + apply Hmax; [exact Hin0|].
      apply crossed_iff in Hc0. destruct Hc0 as (q & Hq & Hlt0 & _).
      now injection Hq as <-.
    + exact (alert_to_send_highest _ _ _ H0 t Hin Hc).
Qed.

Lemma not_cooling_not_crossed (p : Q) (curr T : Z) :
  (p <= inject_Z curr)%Q -> crossed (Some p) curr T = false.
Proof.
  intro H. destruct (crossed (Some p) curr T) eqn:E; [|reflexivity].
  apply crossed_iff in E. destruct E as (q & Hq & Hlt & Hle).
  injection Hq as <-. exfalso.
  apply (Qlt_not_le _ _ Hlt). apply Qle_trans with (inject_Z curr); [exact H|].
  now rewrite <- Zle_Qle.
Qed.

(** X6. No cold notification is sent unless the feels-like reading has
    fallen: when the previous reading is at or below the current rounded
    reading, whatever the hour, the run sends no cold notification. *)
Theorem no_cold_alert_unless_cooling data hour file t f p :
  current_fields data = Some (t, f) ->
  last_feels_like (load_state file) = Some p ->
  (p <= inject_Z (py_round f))%Q ->
  cold_pushes (fst (run data hour file)) = 0%nat.
Proof.
  intros Hc Hp Hle.
  assert (Ha : alert_to_send (Some p) (py_round f) = None).
  { destruct (alert_to_send (Some p) (py_round f)) as [t0|] eqn:E;
      [|reflexivity].
    destruct (alert_to_send_Some _ _ _ E) as [_ Hx].
    now rewrite not_cooling_not_crossed in Hx. }
  destruct (rain_loop (lookahead data)) as [[rs rt]|e] eqn:Hr.
  - rewrite (run_complete _ hour file _ _ _ _ Hr Hc). cbn [fst].
    rewrite Hp, Ha, !cold_pushes_app.
    now destruct (rain_events_trace rs rt (load_state file)) as (_ & -> & _).
  - now rewrite (run_rain_raise _ hour file _ Hr).
Qed.

Lemma no_cold_alert_unless_cooling_witness :
  cold_pushes
    (fst (run (reading (7 # 1) (7 # 1) (Some [])) 12
            (Some (state_with (6 # 1))))) = 0%nat.
Proof.
  apply (no_cold_alert_unless_cooling _ _ _ (7 # 1) (7 # 1) (6 # 1)%Q);
    [reflexivity | reflexivity | vm_compute; discriminate].
Defined.

(** X8. Every notification a run sends carries priority 1 or 2: the alert
    script never sends at normal (0) or at a lowered priority. *)
Theorem run_priorities data hour file title m p :
  In (Push title m p) (fst (run data hour file)) -> p = 1 \/ p = 2.
Proof.
  assert (Hrain : forall rs rt st,
             In (Push title m p) (rain_events rs rt st) -> p = 1 \/ p = 2).
  { intros rs rt st. unfold rain_events.
    destruct (rs && negb (rain_alerted st)); [|intros []].
    intros [E|[]]. injection E as _ _ <-. now left. }
  destruct (run_cases data hour file) as [e _ ->|rs rt key _ _ ->|rs rt t f _ _ ->];
    cbn [fst].
  - intros [].
  - apply Hrain.
  - rewrite !in_app_iff. intros [H|[H|[H|[]]]]; [now apply Hrain in H| |discriminate].
    rewrite notify_cold_events in H.
    destruct (alert_to_send _ _) as [[[T ti] adv]|]; [|destruct H].
    destruct (is_quiet_hours hour && (0 <? T)); [destruct H|].
    destruct H as [E|[]]. injection E as _ _ <-.
    destruct (T <=? 0); auto.
Qed.

Lemma run_priorities_witness : 1 = 1 \/ 1 = 2.
Proof.
  apply (run_priorities (reading (4 # 1) (4 # 1) (Some [rainy_hour])) 9 None
           RAIN_TITLE (RainMessage (Some 1700000000)) 1).
  left. reflexivity.
Defined.

(** ** Rounding *)

Lemma py_round_Qeq (x y : Q) : (x == y)%Q -> py_round x = py_round y.
Proof.
  intro H. unfold py_round.
  assert (Hf : Qfloor x = Qfloor y) by now apply Qfloor_comp.
  rewrite Hf.
  assert (Hc : Qcompare (x - inject_Z (Qfloor y)) (1 # 2)
               = Qcompare (y - inject_Z (Qfloor y)) (1 # 2)).
  { apply Qcompare_comp; [|reflexivity]. now rewrite H. }
  now rewrite Hc.
Qed.

(** Rounding keeps the order of readings. *)
Lemma py_round_monotone (x y : Q) : (x <= y)%Q -> py_round x <= py_round y.
Proof.
  intro Hxy.
  destruct (Z_le_gt_dec (py_round x) (py_round y)) as [|Hgt]; [assumption|].
  exfalso.
  assert (E : (x == y)%Q).
  { destruct (py_round_nearest x) as [Hx _].
    destruct (py_round_nearest y) as [_ Hy].
    assert (Hz : (inject_Z (py_round y) + 1 <= inject_Z (py_round x))%Q).
    { change 1%Q with (inject_Z 1). rewrite <- inject_Z_plus, <- Zle_Qle. lia. }
    revert Hx Hy Hz.
    generalize (inject_Z (py_round x)) (inject_Z (py_round y)).
    intros a b Hx Hy Hz. apply Qle_antisym; lra. }
  apply py_round_Qeq in E. lia.
Qed.

Lemma py_round_inject_Z (z : Z) : py_round (inject_Z z) = z.
Proof.
  unfold py_round. rewrite Qfloor_Z.
  replace (Qcompare (inject_Z z - inject_Z z) (1 # 2)) with Lt; [reflexivity|].
  symmetry. apply Qlt_alt. generalize (inject_Z z). intro q.
  setoid_replace (q - q)%Q with 0%Q by ring. reflexivity.
Qed.

(** ** The daily summary: high, low and the blocks *)

Lemma py_max_ge_best best l : (best <= WeatherPush.py_max best l)%Q.
Proof.
  revert best. induction l as [|x l IH]; intro best; cbn; [apply Qle_refl|].
  eapply Qle_trans; [|apply IH].
  destruct (Qgtb x best) eqn:E; [|apply Qle_refl].
  apply Qgtb_true in E. now apply Qlt_le_weak.
Qed.

Lemma py_max_ge best l x :
  In x l -> (x <= WeatherPush.py_max best l)%Q.
Proof.
  revert best. induction l as [|y l IH]; intro best; [intros []|].
  intros [<-|Hin]; cbn.
  - eapply Qle_trans; [|apply py_max_ge_best].
    destruct (Qgtb y best) eqn:E; [apply Qle_refl|].
    destruct (Qlt_le_dec best y) as [Hlt|Hle]; [|exact Hle].
    apply Qgtb_true in Hlt. congruence.
  - now apply IH.
Qed.

Lemma py_min_le_best best l : (WeatherPush.py_min best l <= best)%Q.
Proof.
  revert best. induction l as [|x l IH]; intro best; cbn; [apply Qle_refl|].
  eapply Qle_trans; [apply IH|].
  destruct (Qgtb best x) eqn:E; [|apply Qle_refl].
  apply Qgtb_true in E. now apply Qlt_le_weak.
Qed.

Lemma py_min_le best l x :
  In x l -> (WeatherPush.py_min best l <= x)%Q.
Proof.
  revert best. induction l as [|y l IH]; intro best; [intros []|].
  intros [<-|Hin]; cbn.
  - eapply Qle_trans; [apply py_min_le_best|].
    destruct (Qgtb best y) eqn:E; [apply Qle_refl|].
    destruct (Qlt_le_dec y best) as [Hlt|Hle]; [|exact Hle].
    apply Qgtb_true in Hlt. congruence.
  - now apply IH.
Qed.

Lemma temps_In points t :
  In t (WeatherPush.temps points) <->
  exists h, In h points /\ WeatherPush.temp h = Some t.
Proof.
  induction points as [|h points IH]; cbn.
  - split; [intros [] | intros (h & [] & _)].
  - destruct (WeatherPush.temp h) as [t'|] eqn:E; cbn; rewrite IH; split.
    + intros [<-|(h' & Hin & Ht)]; eauto.
    + intros (h' & [<-|Hin] & Ht); [left; congruence | eauto].
    + intros (h' & Hin & Ht). eauto.
    + intros (h' & [<-|Hin] & Ht); [congruence | eauto].
Qed.

(** X9. The high and low of the daily summary. The computation fails with
    [IndexError] exactly when the hourly list is empty (whether or not the
    current conditions carry a temperature), and with [TypeError] exactly
    when the list is not empty, none of its first 24 points has a
    temperature and the current conditions have no number either. Otherwise
    low is at most high, every temperature among the first 24 points rounds
    to a value between them, and with no such temperature both are the
    rounded current temperature. *)
Theorem high_low_brackets current_temp hourly :
  (WeatherPush.high_low current_temp hourly = WeatherPush.Fail WeatherPush.IndexError
   <-> hourly = [])
  /\ (WeatherPush.high_low current_temp hourly = WeatherPush.Fail WeatherPush.TypeError
      <-> hourly <> []
          /\ WeatherPush.temps (firstn 24 hourly) = []
          /\ (forall n, current_temp <> Some (Some n)))
  /\ (forall hi lo,
        WeatherPush.high_low current_temp hourly = WeatherPush.Done (hi, lo) ->
        lo <= hi
        /\ (forall h t, In h (firstn 24 hourly) ->
                        WeatherPush.temp h = Some t ->
                        lo <= py_round t <= hi)
        /\ (WeatherPush.temps (firstn 24 hourly) = [] ->
            exists n, current_temp = Some (Some n)
                      /\ hi = py_round n /\ lo = py_round n)).
Proof.
  unfold WeatherPush.high_low, WeatherPush.now_temp.
  destruct hourly as [|h0 rest].
  { split; [split; reflexivity|]. split; [|discriminate].
    split; [discriminate | intros (H & _); congruence]. }
  destruct (WeatherPush.temps (firstn 24 (h0 :: rest))) as [|t0 ts] eqn:Et.
  - assert (H0 : WeatherPush.temp h0 = None).
    { cbn in Et. destruct (WeatherPush.temp h0); [discriminate|reflexivity]. }
    rewrite H0.
    destruct current_temp as [[n|]|].
    + split; [split; discriminate|]. split.
      * split; [discriminate|]. intros (_ & _ & H). now specialize (H n).
      * intros hi lo E. injection E as <- <-. split; [lia|]. split.
        -- intros h t Hin Ht.
           assert (Hx : In t (WeatherPush.temps (firstn 24 (h0 :: rest)))).
           { apply temps_In. eauto. }
           rewrite Et in Hx. destruct Hx.
        -- intros _. eauto.
    + split; [split; discriminate|]. split; [|discriminate].
      split; [|reflexivity]. intros _. repeat split; discriminate.
    + split; [split; discriminate|]. split; [|discriminate].
      split; [|reflexivity]. intros _. repeat split; discriminate.
  - split; [split; discriminate|]. split.
    { split; [discriminate | intros (_ & H & _); discriminate]. }
    intros hi lo E. injection E as <- <-.
    assert (Hb : forall t, In t (t0 :: ts) ->
                 (WeatherPush.py_min t0 ts <= t /\ t <= WeatherPush.py_max t0 ts)%Q).
    { intros t [<-|Hin].
      - split; [apply py_min_le_best | apply py_max_ge_best].
      - split; [now apply py_min_le | now apply py_max_ge]. }
    split; [|split].
    + apply py_round_monotone. destruct (Hb t0 (or_introl eq_refl)).
      eapply Qle_trans; eauto.
    + intros h t Hin Ht.
      assert (Hx : In t (t0 :: ts)).
      { rewrite <- Et. apply temps_In. eauto. }
      destruct (Hb t Hx). split; now apply py_round_monotone.
    + discriminate.
Qed.

Lemma high_low_brackets_witness :
  WeatherPush.high_low None
    [WeatherPush.mkPoint (Some 1700000000) (Some (13 # 2));
     WeatherPush.mkPoint (Some 1700003600) None;
     WeatherPush.mkPoint (Some 1700007200) (Some (-5 # 2))]
  = WeatherPush.Done (6, -2)
  /\ -2 <= 6
  /\ (forall h t,
         In h (firstn 24 [WeatherPush.mkPoint (Some 1700000000) (Some (13 # 2));
                          WeatherPush.mkPoint (Some 1700003600) None;
                          WeatherPush.mkPoint (Some 1700007200) (Some (-5 # 2))]) ->
         WeatherPush.temp h = Some t -> -2 <= py_round t <= 6).
Proof.
  split; [reflexivity|].
  destruct (high_low_brackets None
              [WeatherPush.mkPoint (Some 1700000000) (Some (13 # 2));
               WeatherPush.mkPoint (Some 1700003600) None;
               WeatherPush.mkPoint (Some 1700007200) (Some (-5 # 2))])
    as (_ & _ & H).
  destruct (H 6 (-2) eq_refl) as (A & B & _). split; assumption.
Defined.

(** *** Time blocks *)

Lemma block_temps_length local_hour hours next24 :
  List.length (WeatherPush.block_temps local_hour hours next24)
  = List.length
      (filter (fun h => usable h
                        && WeatherPush.in_range (hour_of local_hour h) hours)
              next24).
Proof.
  induction next24 as [|h rest IH]; [reflexivity|].
  cbn [WeatherPush.block_temps filter]. unfold usable, hour_of.
  destruct (WeatherPush.dt h) as [ts|]; [|exact IH].
  destruct (ts =? 0); cbn [negb].
  - destruct (WeatherPush.temp h); exact IH.
  - destruct (WeatherPush.in_range (local_hour ts) hours);
      destruct (WeatherPush.temp h); cbn; now rewrite ?IH.
Qed.

(** X10. Every forecast point is counted in at most one time block: the
    four blocks together hold exactly the points that have a non-zero
    timestamp, a temperature and a local hour from 5 to 23. Points at local
    hours 0 to 4, points without a temperature and points whose timestamp
    is missing or 0 are in no block. *)
Theorem blocks_partition_daytime_points local_hour next24 :
  fold_right (fun b n =>
                (List.length (WeatherPush.block_temps local_hour (snd b) next24)
                 + n)%nat)
             0%nat WeatherPush.BLOCKS
  = List.length
      (filter (fun h => usable h && (5 <=? hour_of local_hour h)
                        && (hour_of local_hour h <? 24))
              next24).
Proof.
  cbn [fold_right WeatherPush.BLOCKS snd]. rewrite !block_temps_length.
  set (hr := hour_of local_hour).
  induction next24 as [|h rest IH]; [reflexivity|].
  cbn [filter]. unfold WeatherPush.in_range in *. cbn [fst snd] in *.
  destruct (usable h); cbn [andb]; [|exact IH].
  destruct (Z.leb_spec 5 (hr h)), (Z.ltb_spec (hr h) 11),
    (Z.leb_spec 11 (hr h)), (Z.ltb_spec (hr h) 16),
    (Z.leb_spec 16 (hr h)), (Z.ltb_spec (hr h) 20),
    (Z.leb_spec 20 (hr h)), (Z.ltb_spec (hr h) 24);
    cbn [andb List.length]; try lia.
Qed.


(** ** The daily summary: formatting and the tip *)

Lemma length_append (s1 s2 : string) :
  String.length (s1 ++ s2) = (String.length s1 + String.length s2)%nat.
Proof. induction s1 as [|c s1 IH]; cbn; [reflexivity | now rewrite IH]. Qed.

Lemma append_cancel (s a b : string) : (s ++ a = s ++ b)%string -> a = b.
Proof.
  induction s as [|c s IH]; cbn; [trivial|].
  intro H. injection H as H. auto.
Qed.

(** X11. [dash_range] prints ["--"] exactly when a bound is missing. With
    both bounds present it prints a single temperature exactly when the two
    bounds round to the same degree, and otherwise, for bounds in order, the
    lower rounded value, the dash and the strictly greater rounded value. *)
Theorem dash_range_shape :
  (forall m M, WeatherPush.dash_range m M = "--" <-> m = None \/ M = None)
  /\ (forall a b,
        WeatherPush.dash_range (Some a) (Some b) = WeatherPush.fmt_temp a
        <-> py_round a = py_round b)
  /\ (forall a b,
        (a <= b)%Q -> py_round a <> py_round b ->
        py_round a < py_round b
        /\ WeatherPush.dash_range (Some a) (Some b)
           = (WeatherPush.str_int (py_round a) ++ WeatherPush.DASH
              ++ WeatherPush.str_int (py_round b) ++ WeatherPush.DEGREE)%string).
Proof.
  split; [|split].
  - intros [a|] [b|]; cbn [WeatherPush.dash_range];
      try (split; [auto | reflexivity]).
    split; [|intros [H|H]; discriminate].
    intro H. apply (f_equal String.length) in H. exfalso. revert H.
    destruct (negb (py_round a =? py_round b));
      rewrite !length_append; cbn; lia.
  - intros a b. unfold WeatherPush.dash_range, WeatherPush.fmt_temp.
    destruct (Z.eqb_spec (py_round a) (py_round b)) as [E|N]; cbn [negb].
    + split; auto.
    + split; [|contradiction]. intro H. apply append_cancel in H.
      cbn in H. discriminate.
  - intros a b Hab N. split.
    + pose proof (py_round_monotone a b Hab). lia.
    + unfold WeatherPush.dash_range.
      destruct (Z.eqb_spec (py_round a) (py_round b)); [contradiction|].
      reflexivity.
Qed.

Lemma dash_range_shape_witness :
  py_round (-3 # 2) < py_round (13 # 4)
  /\ WeatherPush.dash_range (Some (-3 # 2)) (Some (13 # 4))
     = (WeatherPush.str_int (-2) ++ WeatherPush.DASH
        ++ WeatherPush.str_int 3 ++ WeatherPush.DEGREE)%string.
Proof.
  destruct dash_range_shape as (_ & _ & H).
  apply (H (-3 # 2) (13 # 4)%Q); vm_compute; discriminate.
Defined.

(** X12. The rule-based tip. A rain tip is given exactly when the rain
    chance is 30 or more, whatever the temperatures. The hot-day tip is given
    only when the low is above 22 and the cold tip only when the high is
    below 15, since a swing of 10 or more takes precedence over both; the
    default tip is given exactly when rain is below 30, the swing below 10,
    the high below 32 and the low above 5. *)
Theorem rules_tip_conditions (facts : WeatherPush.Facts) :
  let tip := WeatherPush.rules facts in
  (tip = WeatherPush.TIP_RAIN_LIKELY \/ tip = WeatherPush.TIP_SOME_RAIN
   <-> 30 <= WeatherPush.rain_pct facts)
  /\ (tip = WeatherPush.TIP_BIG_SWING
      <-> WeatherPush.rain_pct facts < 30
          /\ 10 <= WeatherPush.high facts - WeatherPush.low facts)
  /\ (tip = WeatherPush.TIP_HOT ->
      22 < WeatherPush.low facts /\ 32 <= WeatherPush.high facts
      /\ WeatherPush.rain_pct facts < 30)
  /\ (tip = WeatherPush.TIP_COLD ->
      WeatherPush.high facts < 15 /\ WeatherPush.low facts <= 5
      /\ WeatherPush.rain_pct facts < 30)
  /\ (tip = WeatherPush.TIP_TYPICAL
      <-> WeatherPush.rain_pct facts < 30
          /\ WeatherPush.high facts - WeatherPush.low facts < 10
          /\ WeatherPush.high facts < 32
          /\ 5 < WeatherPush.low facts).
Proof.
  cbn zeta. unfold WeatherPush.rules.
  destruct (Z.leb_spec 60 (WeatherPush.rain_pct facts));
    [|destruct (Z.leb_spec 30 (WeatherPush.rain_pct facts));
      [|destruct (Z.leb_spec 10 (WeatherPush.high facts - WeatherPush.low facts));
        [|destruct (Z.leb_spec 32 (WeatherPush.high facts));
          [|destruct (Z.leb_spec (WeatherPush.low facts) 5)]]]];
    repeat split; intros;
    repeat match goal with
           | H : _ \/ _ |- _ => destruct H
           | H : _ /\ _ |- _ => destruct H
           end;
    try discriminate; try lia; auto.
Qed.

Lemma rules_tip_conditions_witness :
  22 < 25 /\ 32 <= 33 /\ 10 < 30.
Proof.
  destruct (rules_tip_conditions
              (WeatherPush.mkFacts "McKinney" 30 "Clear sky" 33 25 10))
    as (_ & _ & H & _).
  apply H. reflexivity.
Defined.

(** *** Cleaning a generated tip *)

Lemma Forall_take {A} (P : A -> Prop) n (l : list A) :
  Forall P l -> Forall P (firstn n l).
Proof.
  intro H. rewrite <- (firstn_skipn n l) in H.
  now apply Forall_app in H.
Qed.

Section SingleLine.

Variable isspace : N -> bool.

Let nonspace (c : N) : Prop := isspace c = false.
Let plain (c : N) : Prop := isspace c = true -> c = WeatherPush.SPACE.

Lemma split_from_words cur s :
  Forall nonspace cur ->
  Forall (Forall nonspace) (WeatherPush.split_from isspace cur s).
Proof.
  revert cur. induction s as [|c s IH]; intros cur Hcur; cbn.
  - destruct cur; constructor; [|constructor]. now apply Forall_rev.
  - destruct (isspace c) eqn:E.
    + destruct cur.
      * apply IH. constructor.
      * constructor; [now apply Forall_rev | apply IH; constructor].
    + apply IH. now constructor.
Qed.

Lemma join_plain words :
  Forall (Forall nonspace) words ->
  Forall plain (WeatherPush.join [WeatherPush.SPACE] words).
Proof.
  assert (Hw : forall w, Forall nonspace w -> Forall plain w).
  { intros w. apply Forall_impl. unfold nonspace, plain. intros c H1 H2.
    congruence. }
  induction 1 as [|w ws Hword Hrest IH]; cbn; [constructor|].
  destruct ws as [|w' ws']; [now apply Hw|].
  apply Forall_app. split; [now apply Hw|].
  constructor; [intros _; reflexivity | exact IH].
Qed.

Lemma lstrip_all_space s :
  Forall (fun c => isspace c = true) s -> WeatherPush.lstrip isspace s = [].
Proof. induction 1 as [|c s Hc _ IH]; cbn; [reflexivity | now rewrite Hc]. Qed.

Lemma lstrip_nonspace s :
  Forall nonspace s -> WeatherPush.lstrip isspace s = s.
Proof. destruct 1 as [|c s Hc _]; cbn; [reflexivity | now rewrite Hc]. Qed.

Lemma strip_nonspace s :
  Forall nonspace s -> WeatherPush.strip isspace s = s.
Proof.
  intro H. unfold WeatherPush.strip. rewrite (lstrip_nonspace s H).
  rewrite lstrip_nonspace; [apply rev_involutive | now apply Forall_rev].
Qed.

Lemma split_from_nonspace cur s :
  Forall nonspace s ->
  WeatherPush.split_from isspace cur s
  = match rev cur ++ s with [] => [] | _ :: _ => [rev cur ++ s] end.
Proof.
  intro H. revert cur. induction H as [|c s Hc _ IH]; intro cur; cbn.
  - rewrite app_nil_r. destruct cur as [|x cur]; [reflexivity|].
    cbn. destruct (rev cur ++ [x]) eqn:E; [|reflexivity].
    now apply app_eq_nil in E.
  - rewrite Hc, IH. cbn. now rewrite <- app_assoc.
Qed.

(** X13. A generated tip is cut to at most 90 characters and holds no
    whitespace character other than the plain space, so no line break,
    whatever the completion contained. A completion of whitespace only
    becomes the empty tip, and a completion without whitespace of at most 90
    characters is returned as it is. *)
Theorem single_line_is_short_and_flat (content : WeatherPush.pystr) :
  (List.length (WeatherPush.single_line isspace content) <= 90)%nat
  /\ Forall (fun c => isspace c = true -> c = WeatherPush.SPACE)
            (WeatherPush.single_line isspace content)
  /\ (Forall (fun c => isspace c = true) content ->
      WeatherPush.single_line isspace content = [])
  /\ (Forall (fun c => isspace c = false) content ->
      (List.length content <= 90)%nat ->
      WeatherPush.single_line isspace content = content).
Proof.
  unfold WeatherPush.single_line. split; [|split; [|split]].
  - apply firstn_le_length.
  - apply Forall_take. apply join_plain. apply split_from_words. constructor.
  - intro H. unfold WeatherPush.strip.
    rewrite (lstrip_all_space content H). reflexivity.
  - intros H Hlen. rewrite (strip_nonspace content H).
    unfold WeatherPush.split. rewrite (split_from_nonspace [] content H).
    cbn [rev app]. destruct content; [reflexivity|].
    cbn [WeatherPush.join]. now apply firstn_all2.
Qed.

End SingleLine.

Lemma rules_is_a_tip facts :
  In (WeatherPush.rules facts)
     [WeatherPush.TIP_RAIN_LIKELY; WeatherPush.TIP_SOME_RAIN;
      WeatherPush.TIP_BIG_SWING; WeatherPush.TIP_HOT;
      WeatherPush.TIP_COLD; WeatherPush.TIP_TYPICAL].
Proof.
  unfold WeatherPush.rules.
  repeat match goal with
         | |- context [if ?b then _ else _] => destruct b
         end; cbn; auto 7.
Qed.

Lemma no_line_break_spec (l : WeatherPush.pystr) :
  forallb (fun c => negb (c =? 10)%N && negb (c =? 13)%N) l = true ->
  ~ In 10%N l /\ ~ In 13%N l.
Proof.
  intro H. rewrite forallb_forall in H.
  split; intro Hin; specialize (H _ Hin); discriminate.
Qed.

Lemma rule_tip_short_and_flat facts :
  (List.length (WeatherPush.decode (WeatherPush.rules facts)) <= 90)%nat
  /\ ~ In 10%N (WeatherPush.decode (WeatherPush.rules facts))
  /\ ~ In 13%N (WeatherPush.decode (WeatherPush.rules facts)).
Proof.
  destruct (rules_is_a_tip facts) as [<-|[<-|[<-|[<-|[<-|[<-|[]]]]]]];
    (split; [vm_compute; lia | apply no_line_break_spec; vm_compute; reflexivity]).
Qed.

(** X14. The tip [ai_insight_or_rules] returns is always one line of at
    most 90 characters (no line feed, no carriage return), on both paths:
    it is the text of the rules when no API key is set, the request raised,
    the status is not 200 or the content of the first choice cannot be read,
    and the cleaned completion when a key is set and a 200 reply has
    readable content. *)
Theorem insight_is_one_short_line isspace OPENAI_KEY facts reply :
  let tip := WeatherPush.ai_insight_or_rules isspace OPENAI_KEY facts reply in
  ((falsy OPENAI_KEY = true
    \/ reply = WeatherPush.NoReply
    \/ exists status_code content,
         reply = WeatherPush.HttpReply status_code content
         /\ (status_code <> 200 \/ content = None)) ->
   tip = WeatherPush.decode (WeatherPush.rules facts))
  /\ (forall content,
        falsy OPENAI_KEY = false ->
        reply = WeatherPush.HttpReply 200 (Some content) ->
        tip = WeatherPush.single_line isspace content)
  /\ (List.length tip <= 90)%nat
  /\ (isspace 10%N = true -> isspace 13%N = true ->
      ~ In 10%N tip /\ ~ In 13%N tip).
Proof.
  cbn zeta. unfold WeatherPush.ai_insight_or_rules.
  pose proof (rule_tip_short_and_flat facts) as (Hlen & Hlf & Hcr).
  assert (Hrule :
            (List.length (WeatherPush.decode (WeatherPush.rules facts)) <= 90)%nat
            /\ (isspace 10%N = true -> isspace 13%N = true ->
                ~ In 10%N (WeatherPush.decode (WeatherPush.rules facts))
                /\ ~ In 13%N (WeatherPush.decode (WeatherPush.rules facts))))
    by auto.
  destruct (falsy OPENAI_KEY) eqn:Ek.
  { split; [reflexivity|]. split; [discriminate | exact Hrule]. }
  destruct reply as [|st [content|]].
  - split; [reflexivity|]. split; [discriminate | exact Hrule].
  - destruct (Z.eqb_spec st 200) as [->|N]; cbn [negb].
    + split.
      { intros [H|[H|(s & c & H & [H'|H'])]]; try discriminate;
          injection H as <- <-; congruence. }
      split; [intros c _ H; now injection H as <-|].
      destruct (single_line_is_short_and_flat isspace content)
        as (Hl & Hflat & _).
      split; [exact Hl|]. intros H10 H13. rewrite Forall_forall in Hflat.
      split; intro Hin; specialize (Hflat _ Hin);
        [specialize (Hflat H10) | specialize (Hflat H13)]; discriminate.
    + split; [reflexivity|]. split; [|exact Hrule].
      intros c _ H. injection H as -> _. contradiction.
  - assert (E : (if negb (st =? 200)
                 then WeatherPush.decode (WeatherPush.rules facts)
                 else WeatherPush.decode (WeatherPush.rules facts))
                = WeatherPush.decode (WeatherPush.rules facts))
      by now destruct (negb (st =? 200)).
    rewrite E. split; [reflexivity|]. split; [discriminate | exact Hrule].
Qed.

Lemma insight_is_one_short_line_witness :
  WeatherPush.ai_insight_or_rules WeatherPush.py_isspace (Some "key")
    (WeatherPush.mkFacts "McKinney" 30 "Clear sky" 33 25 10)
    (WeatherPush.HttpReply 200 (Some [32; 72; 105; 10; 33]%N))
  = [72; 105; 32; 33]%N
  /\ WeatherPush.ai_insight_or_rules WeatherPush.py_isspace (Some "key")
       (WeatherPush.mkFacts "McKinney" 30 "Clear sky" 33 25 10)
       (WeatherPush.HttpReply 503 (Some [72; 105]%N))
     = WeatherPush.decode WeatherPush.TIP_HOT.
Proof.
  split.
  - destruct (insight_is_one_short_line WeatherPush.py_isspace (Some "key")
                (WeatherPush.mkFacts "McKinney" 30 "Clear sky" 33 25 10)
                (WeatherPush.HttpReply 200 (Some [32; 72; 105; 10; 33]%N)))
      as (_ & H & _).
    rewrite (H [32; 72; 105; 10; 33]%N eq_refl eq_refl). reflexivity.
  - destruct (insight_is_one_short_line WeatherPush.py_isspace (Some "key")
                (WeatherPush.mkFacts "McKinney" 30 "Clear sky" 33 25 10)
                (WeatherPush.HttpReply 503 (Some [72; 105]%N)))
      as (H & _).
    rewrite H; [reflexivity|].
    right. right. exists 503, (Some [72; 105]%N).
    split; [reflexivity | left; discriminate].
Defined.

Lemma single_line_is_short_and_flat_witness :
  WeatherPush.single_line WeatherPush.py_isspace [72; 111; 116]%N
  = [72; 111; 116]%N.
Proof.
  destruct (single_line_is_short_and_flat WeatherPush.py_isspace
              [72; 111; 116]%N) as (_ & _ & _ & H).
  apply H; [repeat constructor | cbn; lia].
Defined.

(** ** How the alert script can stop *)

Lemma any_rain_raise ws e : any_rain ws = Raise e -> e = KeyError "main".
Proof.
  induction ws as [|w ws IH]; cbn; [discriminate|].
  destruct (main w) as [m|]; cbn.
  - destruct (lower m =? "rain")%string; [discriminate | exact IH].
  - intro H. now injection H as <-.
Qed.

Lemma rain_loop_raise hs e :
  rain_loop hs = Raise e -> e = KeyError "main" \/ e = KeyError "dt".
Proof.
  induction hs as [|h hs IH]; cbn; [discriminate|].
  destruct (is_rain h) as [[|]|e'] eqn:E.
  - destruct (dt h); cbn; [discriminate|].
    intro H. injection H as <-. now right.
  - exact IH.
  - intro H. injection H as <-. left. unfold is_rain in E.
    destruct (rain h); [discriminate|]. now apply any_rain_raise in E.
Qed.

Lemma cold_section_raise data hour st e :
  snd (cold_section data hour st) = Raise e ->
  e = KeyError "current" \/ e = KeyError "temp" \/ e = KeyError "feels_like".
Proof.
  destruct (current_fields data) as [[t f]|] eqn:Hc.
  - rewrite (cold_section_ok _ _ _ _ _ Hc). discriminate.
  - unfold current_fields, cold_section in *.
    destruct (current data) as [c|];
      [|intro H; injection H as <-; auto].
    cbn [subscript lift bind].
    destruct (temp c) as [t|]; [|intro H; injection H as <-; auto].
    cbn [subscript lift bind].
    destruct (feels_like c) as [f|]; [discriminate|].
    intro H. injection H as <-. auto.
Qed.

Lemma run_never_exits data hour file code :
  snd (run data hour file) <> Raise (SystemExit code).
Proof.
  destruct (run_cases data hour file) as [e Hr ->|rs rt key _ _ ->|rs rt t f _ _ ->];
    cbn [snd]; try discriminate.
  destruct (rain_loop_raise _ _ Hr) as [->| ->]; discriminate.
Qed.

(** ** The script with failing delivery and an unchecked state file *)

(** With both posts returning and a complete state file, the second reading
    of the script is the first. *)
Lemma delivery_refines data hour file :
  Delivery.run true true data hour (option_map Delivery.of_state file)
  = (map of_event (fst (run data hour file)),
     of_result (snd (run data hour file))).
Proof.
  assert (Hl : Delivery.load_state (option_map Delivery.of_state file)
               = Delivery.of_state (load_state file))
    by (destruct file; reflexivity).
  unfold Delivery.run, run. rewrite Hl.
  unfold Delivery.rain_section, rain_section.
  destruct (rain_loop (lookahead data)) as [[rs rt]|e]; [|reflexivity].
  cbn [Delivery.lift Delivery.bind lift bind Delivery.of_state
       Delivery.file_rain_alerted subscript].
  set (st := load_state file).
  unfold Delivery.cold_section, cold_section.
  destruct rs, (rain_alerted st) eqn:Ea;
    cbn [negb andb Delivery.bind bind Delivery.send_push send_push
         Delivery.ret ret Delivery.lift lift app];
    (destruct (current data) as [c|]; [|reflexivity]);
    cbn [subscript Delivery.lift Delivery.bind lift bind app];
    (destruct (temp c) as [t|]; [|reflexivity]);
    cbn [subscript Delivery.lift Delivery.bind lift bind app];
    (destruct (feels_like c) as [f|]; [|reflexivity]);
    cbn [subscript Delivery.lift Delivery.bind lift bind app
         Delivery.file_last_feels_like Delivery.of_state
         Delivery.set_rain_alerted set_rain_alerted last_feels_like];
    unfold Delivery.notify_cold, notify_cold;
    (destruct (alert_to_send (last_feels_like st) (py_round f))
       as [[[T title] advice]|];
     [destruct (negb (is_quiet_hours hour && (0 <? T)))|]);
    cbn; unfold Delivery.of_state, Delivery.set_last_feels_like,
           Delivery.set_rain_alerted;
    cbn; rewrite ?Ea; reflexivity.
Qed.

(** What the rain section does, case by case. *)
Lemma delivery_rain_section rain_ok data st :
  match rain_loop (lookahead data) with
  | Raise e =>
      Delivery.rain_section rain_ok data st
      = ([], Delivery.Stopped (Delivery.Uncaught e))
  | Ok (false, _) =>
      Delivery.rain_section rain_ok data st
      = ([], Delivery.Returned (Delivery.set_rain_alerted false st))
  | Ok (true, rt) =>
      match Delivery.file_rain_alerted st with
      | None =>
          Delivery.rain_section rain_ok data st
          = ([], Delivery.Stopped (Delivery.Uncaught (KeyError "rain_alerted")))
      | Some true =>
          Delivery.rain_section rain_ok data st = ([], Delivery.Returned st)
      | Some false =>
          Delivery.rain_section rain_ok data st
          = ([Delivery.Push RAIN_TITLE (RainMessage rt) 1],
             if rain_ok
             then Delivery.Returned (Delivery.set_rain_alerted true st)
             else Delivery.Stopped Delivery.RequestException)
      end
  end.
Proof.
  unfold Delivery.rain_section.
  destruct (rain_loop (lookahead data)) as [[[|] rt]|e]; cbn; try reflexivity.
  destruct (Delivery.file_rain_alerted st) as [[|]|]; cbn; try reflexivity.
  destruct rain_ok; reflexivity.
Qed.

(** The events of the rain section: nothing, or the one rain notification. *)
Lemma delivery_rain_events rain_ok data st :
  let evs := fst (Delivery.rain_section rain_ok data st) in
  filter Delivery.is_save evs = []
  /\ filter Delivery.is_cold_push evs = []
  /\ (evs = [] \/ exists rt, evs = [Delivery.Push RAIN_TITLE (RainMessage rt) 1])
  /\ (snd (Delivery.rain_section rain_ok data st)
      = Delivery.Stopped Delivery.RequestException ->
      rain_ok = false /\ evs <> []).
Proof.
  pose proof (delivery_rain_section rain_ok data st) as H.
  destruct (rain_loop (lookahead data)) as [[[|] rt]|e];
    [destruct (Delivery.file_rain_alerted st) as [[|]|]| |];
    rewrite H; cbn; repeat split; auto; try discriminate; eauto.
  - destruct rain_ok; [discriminate|reflexivity].
Qed.

Lemma delivery_notify_cold cold_ok hour ct cf prev :
  Delivery.notify_cold cold_ok hour ct cf (alert_to_send prev cf)
  = match alert_to_send prev cf with
    | Some (T, title, advice) =>
        if is_quiet_hours hour && (0 <? T) then ([], Delivery.Returned tt)
        else ([Delivery.Push title (ColdMessage ct cf advice)
                 (if T <=? 0 then 2 else 1)],
              if cold_ok then Delivery.Returned tt
              else Delivery.Stopped Delivery.RequestException)
    | None => ([], Delivery.Returned tt)
    end.
Proof.
  unfold Delivery.notify_cold.
  destruct (alert_to_send prev cf) as [[[T title] advice]|]; [|reflexivity].
  destruct (is_quiet_hours hour && (0 <? T)); reflexivity.
Qed.

(** The events of the cold notification: nothing, or one notification of a
    row of the table. *)
Lemma delivery_cold_events cold_ok hour ct cf prev :
  let r := Delivery.notify_cold cold_ok hour ct cf (alert_to_send prev cf) in
  filter Delivery.is_save (fst r) = []
  /\ filter Delivery.is_rain_push (fst r) = []
  /\ filter (fun e => negb (Delivery.is_cold_push e)) (fst r) = []
  /\ (fst r = [] \/ exists title m p, fst r = [Delivery.Push title m p])
  /\ (cold_ok = true -> snd r = Delivery.Returned tt)
  /\ (snd r = Delivery.Returned tt
      \/ snd r = Delivery.Stopped Delivery.RequestException
         /\ cold_ok = false /\ fst r <> []).
Proof.
  cbn zeta. rewrite delivery_notify_cold.
  destruct (alert_to_send prev cf) as [[[T title] advice]|] eqn:E;
    [|cbn; repeat split; auto; discriminate].
  destruct (is_quiet_hours hour && (0 <? T));
    [cbn; repeat split; auto; discriminate|].
  apply alert_to_send_Some in E. destruct E as [Hin _].
  cbn [fst snd].
  split; [reflexivity|].
  split; [destruct Hin as [E|[E|[E|[E|[]]]]]; injection E as <- <- <-; reflexivity|].
  split; [destruct Hin as [E|[E|[E|[E|[]]]]]; injection E as <- <- <-; reflexivity|].
  split; [right; eauto|].
  split; [now intros ->|].
  destruct cold_ok; [now left|]. right. repeat split. discriminate.
Qed.

Lemma delivery_cold_section_ok cold_ok data hour st t f :
  current_fields data = Some (t, f) ->
  Delivery.cold_section cold_ok data hour st
  = Delivery.bind
      (Delivery.notify_cold cold_ok hour (py_round t) (py_round f)
         (alert_to_send (Delivery.file_last_feels_like st) (py_round f)))
      (fun _ => Delivery.ret
                  (Delivery.set_last_feels_like (inject_Z (py_round f)) st)).
Proof.
  unfold current_fields, Delivery.cold_section. intro H.
  destruct (current data) as [c|]; [|discriminate].
  cbn [subscript Delivery.lift Delivery.bind].
  destruct (temp c) as [t'|]; [|discriminate].
  cbn [subscript Delivery.lift Delivery.bind].
  destruct (feels_like c) as [f'|]; [|discriminate].
  cbn [subscript Delivery.lift Delivery.bind].
  injection H as -> ->.
  destruct (Delivery.notify_cold _ _ _ _ _) as [evs [[]|s]]; reflexivity.
Qed.

Lemma delivery_cold_section_missing cold_ok data hour st :
  current_fields data = None ->
  exists key,
    In key ["current"; "temp"; "feels_like"]
    /\ Delivery.cold_section cold_ok data hour st
       = ([], Delivery.Stopped (Delivery.Uncaught (KeyError key))).
Proof.
  unfold current_fields, Delivery.cold_section. intro H.
  destruct (current data) as [c|]; [|eexists; split; [|reflexivity]; cbn; auto].
  cbn [subscript Delivery.lift Delivery.bind].
  destruct (temp c) as [t|]; [|eexists; split; [|reflexivity]; cbn; auto].
  cbn [subscript Delivery.lift Delivery.bind].
  destruct (feels_like c) as [f|];
    [discriminate|eexists; split; [|reflexivity]; cbn; auto].
Qed.

Lemma delivery_cold_section_missing_hour cold_ok cold_ok' data h1 h2 st :
  current_fields data = None ->
  Delivery.cold_section cold_ok data h1 st
  = Delivery.cold_section cold_ok' data h2 st.
Proof.
  unfold current_fields, Delivery.cold_section. intro H.
  destruct (current data) as [c|]; [|reflexivity].
  cbn [subscript Delivery.lift Delivery.bind].
  destruct (temp c) as [t|]; [|reflexivity].
  cbn [subscript Delivery.lift Delivery.bind].
  destruct (feels_like c) as [f|]; [discriminate|reflexivity].
Qed.

Lemma delivery_disk_after_app file a b :
  Delivery.disk_after file (a ++ b)
  = Delivery.disk_after (Delivery.disk_after file a) b.
Proof.
  revert file. induction a as [|e a IH]; intro file; [reflexivity|].
  destruct e; cbn; apply IH.
Qed.

Lemma delivery_disk_after_no_save file evs :
  filter Delivery.is_save evs = [] -> Delivery.disk_after file evs = file.
Proof.
  induction evs as [|e evs IH]; [reflexivity|].
  destruct e; cbn; [exact IH | discriminate].
Qed.

(** A run whose rain section returns and whose current conditions are
    complete: the cold notification, then the save if its post returned. *)
Lemma delivery_run_complete rain_ok cold_ok data hour file evs st t f :
  Delivery.rain_section rain_ok data (Delivery.load_state file)
  = (evs, Delivery.Returned st) ->
  current_fields data = Some (t, f) ->
  Delivery.run rain_ok cold_ok data hour file
  = let r := Delivery.notify_cold cold_ok hour (py_round t) (py_round f)
               (alert_to_send (Delivery.file_last_feels_like st) (py_round f))
    in
    match snd r with
    | Delivery.Returned _ =>
        (evs ++ fst r
           ++ [Delivery.Save
                 (Delivery.set_last_feels_like (inject_Z (py_round f)) st)],
         Delivery.Returned tt)
    | Delivery.Stopped s => (evs ++ fst r, Delivery.Stopped s)
    end.
Proof.
  intros Hr Hc. unfold Delivery.run. rewrite Hr. cbn [Delivery.bind].
  rewrite (delivery_cold_section_ok _ _ _ _ _ _ Hc). cbn zeta.
  destruct (Delivery.notify_cold _ _ _ _ _) as [ce [[]|s]];
    cbn [Delivery.bind Delivery.ret Delivery.save_state fst snd];
    now rewrite ?app_nil_r.
Qed.

Lemma delivery_run_missing rain_ok cold_ok data hour file evs st :
  Delivery.rain_section rain_ok data (Delivery.load_state file)
  = (evs, Delivery.Returned st) ->
  current_fields data = None ->
  exists key,
    In key ["current"; "temp"; "feels_like"]
    /\ Delivery.run rain_ok cold_ok data hour file
       = (evs, Delivery.Stopped (Delivery.Uncaught (KeyError key))).
Proof.
  intros Hr Hc. unfold Delivery.run. rewrite Hr. cbn [Delivery.bind].
  destruct (delivery_cold_section_missing cold_ok data hour st Hc)
    as (key & Hk & ->).
  exists key. split; [exact Hk|]. cbn. now rewrite app_nil_r.
Qed.

Lemma delivery_run_stopped rain_ok cold_ok data hour file evs s :
  Delivery.rain_section rain_ok data (Delivery.load_state file)
  = (evs, Delivery.Stopped s) ->
  Delivery.run rain_ok cold_ok data hour file = (evs, Delivery.Stopped s).
Proof. intro Hr. unfold Delivery.run. now rewrite Hr. Qed.

(** X7. The local hour decides nothing but whether the cold notification is
    sent, as long as the post of that notification returns: at two hours a
    run on the same response and state file then ends the same way, leaves
    the same state file, and produces the same events apart from the cold
    notification. Whether or not that post returns, the rain notification
    is the same at every hour: quiet hours never hold it back. *)
Theorem hour_gates_only_cold_notification rain_ok data h1 h2 file :
  (forall cold_ok,
      filter Delivery.is_rain_push
        (fst (Delivery.run rain_ok cold_ok data h1 file))
      = filter Delivery.is_rain_push
          (fst (Delivery.run rain_ok cold_ok data h2 file)))
  /\ snd (Delivery.run rain_ok true data h1 file)
     = snd (Delivery.run rain_ok true data h2 file)
  /\ Delivery.disk_after file (fst (Delivery.run rain_ok true data h1 file))
     = Delivery.disk_after file (fst (Delivery.run rain_ok true data h2 file))
  /\ filter (fun e => negb (Delivery.is_cold_push e))
       (fst (Delivery.run rain_ok true data h1 file))
     = filter (fun e => negb (Delivery.is_cold_push e))
         (fst (Delivery.run rain_ok true data h2 file)).
Proof.
  destruct (Delivery.rain_section rain_ok data (Delivery.load_state file))
    as [evs [st|s]] eqn:Hr.
  2:{ split; [intro cold_ok|];
      rewrite !(delivery_run_stopped _ _ _ _ _ _ _ Hr); auto. }
  destruct (current_fields data) as [[t f]|] eqn:Hc.
  - split.
    + intro cold_ok.
      rewrite !(delivery_run_complete _ _ _ _ _ _ _ _ _ Hr Hc). cbn zeta.
      pose proof (delivery_cold_events cold_ok h1 (py_round t) (py_round f)
                    (Delivery.file_last_feels_like st)) as (_ & R1 & _).
      pose proof (delivery_cold_events cold_ok h2 (py_round t) (py_round f)
                    (Delivery.file_last_feels_like st)) as (_ & R2 & _).
      destruct (Delivery.notify_cold cold_ok h1 _ _ _) as [e1 [[]|s1]];
        destruct (Delivery.notify_cold cold_ok h2 _ _ _) as [e2 [[]|s2]];
        cbn [fst snd] in *; rewrite !filter_app, R1, R2; reflexivity.
    + rewrite !(delivery_run_complete _ _ _ _ _ _ _ _ _ Hr Hc). cbn zeta.
      pose proof (delivery_cold_events true h1 (py_round t) (py_round f)
                    (Delivery.file_last_feels_like st))
        as (_ & _ & N1 & _ & O1 & _).
      pose proof (delivery_cold_events true h2 (py_round t) (py_round f)
                    (Delivery.file_last_feels_like st))
        as (_ & _ & N2 & _ & O2 & _).
      specialize (O1 eq_refl). specialize (O2 eq_refl).
      destruct (Delivery.notify_cold true h1 _ _ _) as [e1 r1].
      destruct (Delivery.notify_cold true h2 _ _ _) as [e2 r2].
      cbn [fst snd] in *. subst r1 r2. cbn [fst snd].
      split; [reflexivity|]. split.
      * rewrite !delivery_disk_after_app. reflexivity.
      * rewrite !filter_app, N1, N2. reflexivity.
  - assert (Hk : Delivery.cold_section true data h1 st
                 = Delivery.cold_section true data h2 st)
      by now apply delivery_cold_section_missing_hour.
    split.
    + intro cold_ok.
      destruct (delivery_run_missing rain_ok cold_ok data h1 file evs st Hr Hc)
        as (k3 & _ & ->).
      destruct (delivery_run_missing rain_ok cold_ok data h2 file evs st Hr Hc)
        as (k4 & _ & ->).
      reflexivity.
    + assert (E : Delivery.run rain_ok true data h1 file
                  = Delivery.run rain_ok true data h2 file).
      { unfold Delivery.run. rewrite Hr. cbn [Delivery.bind]. now rewrite Hk. }
      rewrite E. auto.
Qed.

(** X16. When the post of a notification raises, the run stops at that
    notification: it is the last event, the state is not saved and the state
    file is left as it was. So a rain notification whose post raises leaves
    [rain_alerted] unset in the file, and a cold notification whose post
    raises leaves [last_feels_like] as it was. *)
Theorem failed_delivery_saves_nothing :
  (forall rain_ok cold_ok data hour file,
      snd (Delivery.run rain_ok cold_ok data hour file)
      = Delivery.Stopped Delivery.RequestException ->
      (rain_ok = false \/ cold_ok = false)
      /\ (exists pre title m p,
            fst (Delivery.run rain_ok cold_ok data hour file)
            = pre ++ [Delivery.Push title m p])
      /\ filter Delivery.is_save
           (fst (Delivery.run rain_ok cold_ok data hour file)) = []
      /\ Delivery.disk_after file
           (fst (Delivery.run rain_ok cold_ok data hour file)) = file)
  /\ (forall cold_ok data hour file rt,
        rain_loop (lookahead data) = Ok (true, rt) ->
        Delivery.file_rain_alerted (Delivery.load_state file) = Some false ->
        Delivery.run false cold_ok data hour file
        = ([Delivery.Push RAIN_TITLE (RainMessage rt) 1],
           Delivery.Stopped Delivery.RequestException))
  /\ (forall rain_ok data hour file rt t f T title advice,
        rain_loop (lookahead data) = Ok (false, rt) ->
        current_fields data = Some (t, f) ->
        alert_to_send (Delivery.file_last_feels_like (Delivery.load_state file))
          (py_round f) = Some (T, title, advice) ->
        is_quiet_hours hour && (0 <? T) = false ->
        Delivery.run rain_ok false data hour file
        = ([Delivery.Push title (ColdMessage (py_round t) (py_round f) advice)
              (if T <=? 0 then 2 else 1)],
           Delivery.Stopped Delivery.RequestException)).
Proof.
  split; [|split].
  - intros rain_ok cold_ok data hour file.
    pose proof (delivery_rain_events rain_ok data (Delivery.load_state file))
      as (Hs & _ & Hev & Hstop).
    destruct (Delivery.rain_section rain_ok data (Delivery.load_state file))
      as [evs [st|s]] eqn:Hr; cbn [fst snd] in *.
    + destruct (current_fields data) as [[t f]|] eqn:Hc.
      * rewrite (delivery_run_complete _ cold_ok _ hour _ _ _ _ _ Hr Hc).
        cbn zeta.
        pose proof (delivery_cold_events cold_ok hour (py_round t) (py_round f)
                      (Delivery.file_last_feels_like st))
          as (Cs & _ & _ & Cev & _ & Cstop).
        destruct (Delivery.notify_cold cold_ok hour _ _ _) as [ce [[]|s]];
          cbn [fst snd] in *; [discriminate|].
        intro H. injection H as ->.
        destruct Cstop as [C|(_ & Hok & Hne)]; [discriminate|].
        destruct Cev as [->|(title & m & p & ->)]; [contradiction|].
        split; [now right|]. split; [eauto|].
        assert (Hf : filter Delivery.is_save
                       (evs ++ [Delivery.Push title m p]) = [])
          by (rewrite filter_app, Hs; reflexivity).
        split; [exact Hf | now apply delivery_disk_after_no_save].
      * destruct (delivery_run_missing rain_ok cold_ok data hour file evs st Hr Hc)
          as (key & _ & ->). discriminate.
    + rewrite (delivery_run_stopped _ cold_ok _ hour _ _ _ Hr). cbn [fst snd].
      intro H. injection H as ->. destruct (Hstop eq_refl) as [Hok Hne].
      destruct Hev as [->|(rt & ->)]; [contradiction|].
      split; [now left|].
      split; [exists [], RAIN_TITLE, (RainMessage rt), 1; reflexivity|].
      split; [reflexivity|reflexivity].
  - intros cold_ok data hour file rt Hl Ha.
    pose proof (delivery_rain_section false data (Delivery.load_state file)) as H.
    rewrite Hl, Ha in H.
    now rewrite (delivery_run_stopped _ cold_ok _ hour _ _ _ H).
  - intros rain_ok data hour file rt t f T title advice Hl Hc Ha Hq.
    pose proof (delivery_rain_section rain_ok data (Delivery.load_state file)) as H.
    rewrite Hl in H.
    rewrite (delivery_run_complete _ false _ hour _ _ _ _ _ H Hc). cbn zeta.
    cbn [Delivery.set_rain_alerted Delivery.file_last_feels_like].
    rewrite delivery_notify_cold, Ha, Hq. reflexivity.
Qed.

Lemma failed_delivery_saves_nothing_witness :
  Delivery.run true false (reading (4 # 1) (4 # 1) (Some [])) 14
    (Some (Delivery.mkStateFile (Some false) (Some (6 # 1))))
  = ([Delivery.Push "🧊 Very Cold Alert"
        (ColdMessage 4 4 "Cold conditions expected. Bundle up.") 1],
     Delivery.Stopped Delivery.RequestException)
  /\ Delivery.disk_after
       (Some (Delivery.mkStateFile (Some false) (Some (6 # 1))))
       (fst (Delivery.run true false (reading (4 # 1) (4 # 1) (Some [])) 14
               (Some (Delivery.mkStateFile (Some false) (Some (6 # 1))))))
     = Some (Delivery.mkStateFile (Some false) (Some (6 # 1))).
Proof.
  destruct failed_delivery_saves_nothing as (H1 & _ & H3). split.
  - apply (H3 true (reading (4 # 1) (4 # 1) (Some [])) 14
              (Some (Delivery.mkStateFile (Some false) (Some (6 # 1))))
              None (4 # 1) (4 # 1)%Q 5 "🧊 Very Cold Alert"
              "Cold conditions expected. Bundle up."); reflexivity.
  - apply (H1 true false). reflexivity.
Defined.

(** X17. A state file without the key [rain_alerted] stops the run with a
    [KeyError], before anything is sent, exactly in the invocations that
    detect rain: the flag is read only then. With no rain detected the run
    goes on, and the state it saves has [rain_alerted] set to false. *)
Theorem missing_flag_read_only_when_rain rain_ok cold_ok data hour st :
  Delivery.file_rain_alerted st = None ->
  (forall rt,
      rain_loop (lookahead data) = Ok (true, rt) ->
      Delivery.run rain_ok cold_ok data hour (Some st)
      = ([], Delivery.Stopped (Delivery.Uncaught (KeyError "rain_alerted"))))
  /\ (forall rt,
        rain_loop (lookahead data) = Ok (false, rt) ->
        snd (Delivery.run rain_ok cold_ok data hour (Some st))
        <> Delivery.Stopped (Delivery.Uncaught (KeyError "rain_alerted"))
        /\ forall st',
             In (Delivery.Save st')
                (fst (Delivery.run rain_ok cold_ok data hour (Some st))) ->
             Delivery.file_rain_alerted st' = Some false)
  /\ (forall rt t f,
        rain_loop (lookahead data) = Ok (false, rt) ->
        current_fields data = Some (t, f) ->
        snd (Delivery.run rain_ok true data hour (Some st))
        = Delivery.Returned tt).
Proof.
  intro Hnone.
  pose proof (delivery_rain_section rain_ok data st) as H.
  split; [|split].
  - intros rt Hl. rewrite Hl, Hnone in H.
    now rewrite (delivery_run_stopped _ cold_ok _ hour (Some st) _ _ H).
  - intros rt Hl. rewrite Hl in H.
    destruct (current_fields data) as [[t f]|] eqn:Hc.
    + rewrite (delivery_run_complete _ cold_ok _ hour (Some st) _ _ _ _ H Hc).
      cbn zeta.
      pose proof (delivery_cold_events cold_ok hour (py_round t) (py_round f)
                    (Delivery.file_last_feels_like
                       (Delivery.set_rain_alerted false st)))
        as (_ & _ & _ & Cev & _ & Cstop).
      destruct (Delivery.notify_cold cold_ok hour _ _ _) as [ce [[]|s]];
        cbn [fst snd app] in *.
      * split; [discriminate|]. intros st' Hin.
        apply in_app_iff in Hin. destruct Hin as [Hin|[Hin|[]]].
        -- destruct Cev as [->|(title & m & p & ->)]; [destruct Hin|].
           destruct Hin as [Hin|[]]. discriminate.
        -- now injection Hin as <-.
      * destruct Cstop as [C|(C & _)]; [discriminate|]. injection C as ->.
        split; [discriminate|]. intros st' Hin.
        destruct Cev as [->|(title & m & p & ->)]; [destruct Hin|].
        destruct Hin as [Hin|[]]. discriminate.
    + destruct (delivery_run_missing rain_ok cold_ok data hour (Some st) _ _ H Hc)
        as (key & Hk & ->). cbn [fst snd].
      split; [|intros st' []].
      intro E. injection E as ->.
      destruct Hk as [Hk|[Hk|[Hk|[]]]]; discriminate.
  - intros rt t f Hl Hc. rewrite Hl in H.
    rewrite (delivery_run_complete _ true _ hour (Some st) _ _ _ _ H Hc).
    cbn zeta.
    pose proof (delivery_cold_events true hour (py_round t) (py_round f)
                  (Delivery.file_last_feels_like
                     (Delivery.set_rain_alerted false st)))
      as (_ & _ & _ & _ & O & _).
    rewrite (O eq_refl). reflexivity.
Qed.

Lemma missing_flag_read_only_when_rain_witness :
  Delivery.run true true (reading (4 # 1) (4 # 1) (Some [rainy_hour])) 9
    (Some (Delivery.mkStateFile None (Some (6 # 1))))
  = ([], Delivery.Stopped (Delivery.Uncaught (KeyError "rain_alerted")))
  /\ snd (Delivery.run true true (reading (4 # 1) (4 # 1) (Some [])) 9
            (Some (Delivery.mkStateFile None (Some (6 # 1)))))
     = Delivery.Returned tt.
Proof.
  split.
  - destruct (missing_flag_read_only_when_rain true true
                (reading (4 # 1) (4 # 1) (Some [rainy_hour])) 9
                (Delivery.mkStateFile None (Some (6 # 1))) eq_refl)
      as (H & _).
    apply (H (Some 1700000000)). reflexivity.
  - destruct (missing_flag_read_only_when_rain true true
                (reading (4 # 1) (4 # 1) (Some [])) 9
                (Delivery.mkStateFile None (Some (6 # 1))) eq_refl)
      as (_ & _ & H).
    apply (H None (4 # 1) (4 # 1)%Q); reflexivity.
Defined.

Lemma delivery_rain_section_stop rain_ok data st evs s :
  Delivery.rain_section rain_ok data st = (evs, Delivery.Stopped s) ->
  s = Delivery.RequestException
  \/ exists key, s = Delivery.Uncaught (KeyError key).
Proof.
  pose proof (delivery_rain_section rain_ok data st) as H.
  destruct (rain_loop (lookahead data)) as [[[|] rt]|e] eqn:Hl.
  - destruct (Delivery.file_rain_alerted st) as [[|]|]; rewrite H.
    + discriminate.
    + destruct rain_ok; [discriminate|]. intro E. injection E as _ <-. now left.
    + intro E. injection E as _ <-. right. eauto.
  - rewrite H. discriminate.
  - rewrite H. intro E. injection E as _ <-. right.
    destruct (rain_loop_raise _ _ Hl) as [->| ->]; eauto.
Qed.

Lemma delivery_run_never_exits rain_ok cold_ok data hour file code :
  snd (Delivery.run rain_ok cold_ok data hour file)
  <> Delivery.Stopped (Delivery.Uncaught (SystemExit code)).
Proof.
  destruct (Delivery.rain_section rain_ok data (Delivery.load_state file))
    as [evs [st|s]] eqn:Hr.
  - destruct (current_fields data) as [[t f]|] eqn:Hc.
    + rewrite (delivery_run_complete _ cold_ok _ hour _ _ _ _ _ Hr Hc).
      cbn zeta.
      pose proof (delivery_cold_events cold_ok hour (py_round t) (py_round f)
                    (Delivery.file_last_feels_like st))
        as (_ & _ & _ & _ & _ & Cstop).
      destruct (Delivery.notify_cold cold_ok hour _ _ _) as [ce [[]|s]];
        cbn [fst snd] in *; [discriminate|].
      destruct Cstop as [C|(C & _)]; [discriminate|].
      injection C as ->. discriminate.
    + destruct (delivery_run_missing rain_ok cold_ok data hour file evs st Hr Hc)
        as (key & _ & ->). discriminate.
  - rewrite (delivery_run_stopped _ cold_ok _ hour _ _ _ Hr). cbn [snd].
    destruct (delivery_rain_section_stop _ _ _ _ _ Hr) as [->|[key ->]];
      discriminate.
Qed.

(** X15. The script leaves through [sys.exit(1)] exactly when one of the
    three credentials is missing or empty, and then nothing has been sent
    or saved, whatever the response, the hour, the state file and the fate
    of the posts. *)
Theorem script_exits_iff_credential_missing env rain_ok cold_ok data hour file :
  (snd (Delivery.script env rain_ok cold_ok data hour file)
   = Delivery.Stopped (Delivery.Uncaught (SystemExit 1))
   <-> falsy (OW_KEY env) = true \/ falsy (PUSH_TOKEN env) = true
       \/ falsy (PUSH_USER env) = true)
  /\ (falsy (OW_KEY env) = true \/ falsy (PUSH_TOKEN env) = true
      \/ falsy (PUSH_USER env) = true ->
      fst (Delivery.script env rain_ok cold_ok data hour file) = []
      /\ Delivery.disk_after file
           (fst (Delivery.script env rain_ok cold_ok data hour file)) = file).
Proof.
  unfold Delivery.script.
  destruct (falsy (OW_KEY env)); [cbn; intuition|].
  destruct (falsy (PUSH_TOKEN env)); [cbn; intuition|].
  destruct (falsy (PUSH_USER env)); [cbn; intuition|].
  cbn [orb]. split.
  - split.
    + intro H. now apply delivery_run_never_exits in H.
    + intros [H|[H|H]]; discriminate.
  - intros [H|[H|H]]; discriminate.
Qed.

Lemma script_exits_iff_credential_missing_witness :
  fst (Delivery.script (mkEnv (Some "k") (Some "") (Some "u")) true true
         (reading (4 # 1) (4 # 1) (Some [rainy_hour])) 9 None) = []
  /\ Delivery.disk_after None
       (fst (Delivery.script (mkEnv (Some "k") (Some "") (Some "u")) true true
               (reading (4 # 1) (4 # 1) (Some [rainy_hour])) 9 None)) = None.
Proof.
  destruct (script_exits_iff_credential_missing
              (mkEnv (Some "k") (Some "") (Some "u")) true true
              (reading (4 # 1) (4 # 1) (Some [rainy_hour])) 9 None)
    as (_ & H).
  apply H. right. left. reflexivity.
Defined.
